(** * JournalOwl MCP server: a shallow embedding and its contract

    The adapter has three layers (client/journalOwlClient.ts, tools/index.ts and
    resources/index.ts, index.ts).  Each layer is embedded below as Rocq
    functions that follow the TypeScript text; [await] is sequencing in a small
    monad [M] that carries the list of calls issued to the HTTP library so far
    and may end in a thrown JavaScript error.

    Numbers.  A TypeScript [number] that counts things (pagination totals,
    offsets, limits, HTTP status codes, counters of the profile) is an integer
    [Z]; on such values the arithmetic of the code and the conversion to a
    string are those of integers as long as operands and results are safe
    integers (magnitude at most 2^53 - 1, [safe_integer] below).  Lengths of
    arrays and HTTP status codes always are; for the numbers that the backend
    or the caller chooses (totals, counts, offsets) the theorems about the
    rendered text state it as a hypothesis.  The sentiment score is a fraction
    and keeps its binary64 value ([PrimFloat.float]), so that [>] and [<] are
    the IEEE comparisons the code runs.

    Strings.  A [string] is a sequence of code units; [length] and
    [substring] count code units, as the JavaScript methods do. *)

From Stdlib Require Import String Ascii List ZArith QArith Lia Bool.
From Stdlib Require Import DecimalString.
From Stdlib Require Import Floats.
Import ListNotations.

#[local] Close Scope Q_scope.

#[local] Open Scope list_scope.
#[local] Open Scope string_scope.
#[local] Set Warnings "-inexact-float".

(* ================================================================== *)
(** ** JavaScript built-ins used by the adapter *)

Module JS.

(** The line feed of a ["\n"] escape and the double quote character. *)
Definition nl : string := String "010"%char EmptyString.
Definition dq : string := String "034"%char EmptyString.

(** The error objects the code throws, or that the engine throws for it.
    [McpError] is the SDK's protocol error; it carries a numeric code, and
    its message here is the one passed to the constructor.  The messages of
    [TypeError] are those of V8. *)
Inductive ErrorCode := InternalError.

Inductive exn :=
| Error (message : string)
| TypeError (message : string)
| McpError (code : ErrorCode) (message : string).

(** [error instanceof Error ? error.message : 'Unknown error']: the three
    classes above all extend [Error]. *)
Definition message (e : exn) : string :=
  match e with
  | Error m => m
  | TypeError m => m
  | McpError _ m => m
  end.

(** [ToString] of an integer-valued number, as a template literal applies it:
    the decimal digits, with a minus sign for a negative number.  This is the
    ECMAScript result on safe integers; a larger magnitude is outside the
    model (the engine shortens the digits and, from 10^21 on, switches to an
    exponent). *)
Definition Number_toString (n : Z) : string :=
  NilZero.string_of_int (Z.to_int n).

(** [ToString] of a string that may be [undefined]. *)
Definition ToString (x : option string) : string :=
  match x with
  | Some s => s
  | None => "undefined"
  end.

(** [x || d] on strings: the empty string and [undefined] are falsy. *)
Definition or_else (s d : string) : string :=
  if (s =? "")%string then d else s.

Definition or_string (x : option string) (d : string) : string :=
  match x with
  | Some s => or_else s d
  | None => d
  end.

(** Truthiness of a string that may be [undefined]. *)
Definition truthy (x : option string) : bool :=
  match x with
  | Some s => negb (s =? "")%string
  | None => false
  end.

(** [x || y] where [y] may be [undefined] as well. *)
Definition or_undefined (x y : option string) : option string :=
  match x with
  | Some s => if (s =? "")%string then y else Some s
  | None => y
  end.

(** [x || d] on numbers: [0] and [undefined] are falsy. *)
Definition or_number (x : option Z) (d : Z) : Z :=
  match x with
  | Some n => if (n =? 0)%Z then d else n
  | None => d
  end.

(** [Array.prototype.join] on an array of strings. *)
Definition join (sep : string) (xs : list string) : string :=
  String.concat sep xs.

(** [String.prototype.substring(indexStart, indexEnd)]: both indices are
    clamped to [0, length], and swapped when the first exceeds the second. *)
Definition substring (s : string) (indexStart indexEnd : Z) : string :=
  let len := Z.of_nat (String.length s) in
  let finalStart := Z.min (Z.max indexStart 0) len in
  let finalEnd := Z.min (Z.max indexEnd 0) len in
  let from := Z.min finalStart finalEnd in
  let to := Z.max finalStart finalEnd in
  String.substring (Z.to_nat from) (Z.to_nat (to - from)) s.

(** Functions of the host whose result depends on the locale or on the
    decimal expansion of a binary64 value; the development is parametric in
    them.  [toLocaleDateString d] is [new Date(d).toLocaleDateString()] and
    [toFixed x digits] is [x.toFixed(digits)]. *)
Class Host := {
  toLocaleDateString : string -> string;
  toFixed : float -> Z -> string
}.

End JS.

Import JS.

(* ================================================================== *)
(** ** Data model (types/index.ts) *)

Inductive EntryStatus := draft | in_progress | completed.

Definition EntryStatus_toString (s : EntryStatus) : string :=
  match s with
  | draft => "draft"
  | in_progress => "in_progress"
  | completed => "completed"
  end.

Module EntryAnalysis.
Record t := mk {
  sentiment : option float;
  themes : option (list string);
  insights : option (list string)
}.
End EntryAnalysis.
Abbreviation EntryAnalysis := EntryAnalysis.t.

Module JournalEntry.
Record t := mk {
  id : string;
  title : string;
  content : string;
  mood : option string;
  tags : list string;
  status : EntryStatus;
  date : string;
  createdAt : string;
  updatedAt : string;
  analysis : option EntryAnalysis
}.
End JournalEntry.
Abbreviation JournalEntry := JournalEntry.t.

Module WeeklyReview.
Record t := mk {
  id : string;
  weekStart : string;
  weekEnd : string;
  summary : string;
  themes : list string;
  emotionalTrend : string;
  insights : list string;
  entriesCount : Z;
  createdAt : string
}.
End WeeklyReview.
Abbreviation WeeklyReview := WeeklyReview.t.

Module UserProfile.
Record t := mk {
  id : string;
  username : string;
  email : string;
  timezone : string;
  journalingSince : string;
  totalEntries : Z;
  currentStreak : Z;
  preferredWritingStyle : option string
}.
End UserProfile.
Abbreviation UserProfile := UserProfile.t.

Module WritingStyle.
Record t := mk {
  currentStyle : string;
  styleDescription : string;
  voiceTone : string;
  suggestions : list string
}.
End WritingStyle.
Abbreviation WritingStyle := WritingStyle.t.

(** The [tags] argument is an array of strings for [journal_create_entry] and
    a comma-separated string for [journal_list_entries]; the handlers forward
    it without looking inside. *)
Inductive TagsValue :=
| TagsArray (xs : list string)
| TagsString (s : string).

(** The body posted by [createEntry].  [CreateEntryInput] declares [content],
    [mood] and [tags]; the object literal built by [handleCreateEntry] also
    carries [date]. *)
Module CreateEntryInput.
Record t := mk {
  content : option string;
  mood : option string;
  tags : option TagsValue;
  date : option string
}.
End CreateEntryInput.
Abbreviation CreateEntryInput := CreateEntryInput.t.

Module ListEntriesParams.
Record t := mk {
  limit : option Z;
  offset : option Z;
  from_date : option string;
  to_date : option string;
  status : option string;
  tags : option TagsValue
}.
(** The default parameter value [{}]. *)
Definition empty : t := mk None None None None None None.
End ListEntriesParams.
Abbreviation ListEntriesParams := ListEntriesParams.t.

Module SearchEntriesInput.
Record t := mk {
  query : option string;
  limit : option Z
}.
End SearchEntriesInput.
Abbreviation SearchEntriesInput := SearchEntriesInput.t.

Module ListReviewsParams.
Record t := mk {
  limit : option Z;
  offset : option Z
}.
End ListReviewsParams.
Abbreviation ListReviewsParams := ListReviewsParams.t.

Module Pagination.
Record t := mk {
  total : Z;
  limit : Z;
  offset : Z;
  hasMore : bool
}.
End Pagination.
Abbreviation Pagination := Pagination.t.

(** The envelope [{status, data?, message?}] of every response body. *)
Module ApiStatus.
Inductive t := success | error.
End ApiStatus.
Abbreviation ApiStatus := ApiStatus.t.

Module ApiResponse.
Record t (T : Type) := mk {
  status : ApiStatus;
  data : option T;
  message : option string
}.
Arguments mk {T}.
Arguments status {T}.
Arguments data {T}.
Arguments message {T}.
End ApiResponse.
Abbreviation ApiResponse := ApiResponse.t.

(** The body of a failure response; its [status] member is the constant
    ['error']. *)
Module ApiError.
Record t := mk {
  message : string;
  code : option string
}.
End ApiError.
Abbreviation ApiError := ApiError.t.

Module JournalOwlConfig.
Record t := mk {
  apiKey : string;
  baseUrl : option string;
  timeout : option Z
}.
End JournalOwlConfig.
Abbreviation JournalOwlConfig := JournalOwlConfig.t.

(** Payloads carried in the [data] member of the envelope, one per endpoint. *)
Module ListEntriesResult.
Record t := mk {
  entries : list JournalEntry;
  pagination : Pagination
}.
End ListEntriesResult.
Abbreviation ListEntriesResult := ListEntriesResult.t.

Module EntryData.
Record t := mk { entry : JournalEntry }.
End EntryData.
Abbreviation EntryData := EntryData.t.

Module SearchResult.
Record t := mk {
  query : string;
  results : list JournalEntry;
  count : Z
}.
End SearchResult.
Abbreviation SearchResult := SearchResult.t.

Module ListReviewsResult.
Record t := mk {
  reviews : list WeeklyReview;
  pagination : Pagination
}.
End ListReviewsResult.
Abbreviation ListReviewsResult := ListReviewsResult.t.

Module ReviewData.
Record t := mk { review : WeeklyReview }.
End ReviewData.
Abbreviation ReviewData := ReviewData.t.

Module ProfileData.
Record t := mk { profile : UserProfile }.
End ProfileData.
Abbreviation ProfileData := ProfileData.t.

Module StyleData.
Record t := mk { style : WritingStyle }.
End StyleData.
Abbreviation StyleData := StyleData.t.

(* ================================================================== *)
(** ** The HTTP library seen from the client (axios) *)

Module AxiosResponse.
Record t (T : Type) := mk {
  status : Z;
  data : T
}.
Arguments mk {T}.
Arguments status {T}.
Arguments data {T}.
End AxiosResponse.
Abbreviation AxiosResponse := AxiosResponse.t.

(** The response attached to a rejected exchange: a failure status and the
    parsed body, when there is one. *)
Module ErrorResponse.
Record t := mk {
  status : Z;
  data : option ApiError
}.
End ErrorResponse.
Abbreviation ErrorResponse := ErrorResponse.t.

(** [AxiosError<ApiError>]: [response] is set when the backend answered with
    a failure status, [request] when a request was sent at all. *)
Module AxiosError.
Record t := mk {
  response : option ErrorResponse;
  request : bool;
  message : string
}.
End AxiosError.
Abbreviation AxiosError := AxiosError.t.

(** How one exchange ends before the interceptors run. *)
Inductive AxiosResult (T : Type) :=
| Fulfilled (response : AxiosResponse T)
| Rejected (error : AxiosError).
Arguments Fulfilled {T}.
Arguments Rejected {T}.

Inductive Verb := GET | POST.

(** The second argument of [get] (query parameters) or [post] (body). *)
Inductive RequestConfig :=
| NoConfig
| ParamsListEntries (params : ListEntriesParams)
| ParamsGetEntry (include_analysis : bool)
| BodyCreateEntry (input : CreateEntryInput)
| BodySearchEntries (input : SearchEntriesInput)
| ParamsListReviews (params : ListReviewsParams).

(** One call of [this.client.get] or [this.client.post]. *)
Module Call.
Record t := mk {
  verb : Verb;
  url : string;
  config : RequestConfig
}.
End Call.
Abbreviation Call := Call.t.

(** The network and the backend behind it: what each endpoint answers.  The
    type parameters are those the client passes to [get<...>] and
    [post<...>]. *)
Module Network.
Record t := mk {
  get_entries : ListEntriesParams -> AxiosResult (ApiResponse ListEntriesResult);
  get_entry : string -> bool -> AxiosResult (ApiResponse EntryData);
  post_entries : CreateEntryInput -> AxiosResult (ApiResponse EntryData);
  post_entries_search : SearchEntriesInput -> AxiosResult (ApiResponse SearchResult);
  get_reviews_weekly : ListReviewsParams -> AxiosResult (ApiResponse ListReviewsResult);
  get_review_weekly : string -> AxiosResult (ApiResponse ReviewData);
  get_user_profile : AxiosResult (ApiResponse ProfileData);
  get_user_style : AxiosResult (ApiResponse StyleData)
}.
End Network.
Abbreviation Network := Network.t.

Module AxiosInstance.
Record t := mk {
  baseURL : string;
  timeout : Z;
  headers : list (string * string);
  network : Network
}.
End AxiosInstance.
Abbreviation AxiosInstance := AxiosInstance.t.

(* ================================================================== *)
(** ** Effects: the calls issued so far, and thrown errors *)

Definition Log := list Call.

Inductive outcome (A : Type) :=
| Returned (value : A)
| Thrown (e : exn).
Arguments Returned {A}.
Arguments Thrown {A}.

Definition M (A : Type) : Type := Log -> outcome A * Log.

Definition ret {A} (a : A) : M A :=
  fun log => (Returned a, log).

Definition throw {A} (e : exn) : M A :=
  fun log => (Thrown e, log).

Definition bind {A B} (m : M A) (k : A -> M B) : M B :=
  fun log =>
    match m log with
    | (Returned a, log') => k a log'
    | (Thrown e, log') => (Thrown e, log')
    end.

(** [try { m } catch (error) { h error }] *)
Definition try_catch {A} (m : M A) (h : exn -> M A) : M A :=
  fun log =>
    match m log with
    | (Returned a, log') => (Returned a, log')
    | (Thrown e, log') => h e log'
    end.

Notation "x <- m ;; k" := (bind m (fun x => k))
  (at level 100, m at next level, right associativity).

(** Reading member [name] of a value that may be [undefined]. *)
Definition prop {A B} (x : option A) (name : string) (get : A -> B) : M B :=
  match x with
  | Some a => ret (get a)
  | None =>
      throw (TypeError ("Cannot read properties of undefined (reading '" ++ name ++ "')"))
  end.

(** Calling a member that may be [undefined]. *)
Definition call {A B} (f : option (A -> M B)) (name : string) (a : A) : M B :=
  match f with
  | Some g => g a
  | None => throw (TypeError (name ++ " is not a function"))
  end.

Definition outcome_of {A} (r : outcome A * Log) : outcome A := fst r.
Definition calls_of {A} (r : outcome A * Log) : Log := snd r.

(* ================================================================== *)
(** ** Transport client (client/journalOwlClient.ts) *)

Definition DEFAULT_BASE_URL : string :=
  "https://journalai-backend-production.up.railway.app/api/v1".
Definition DEFAULT_TIMEOUT : Z := 30000.

(** A parameter with a default value: the default applies to [undefined]. *)
Definition default {A} (x : option A) (d : A) : A :=
  match x with
  | Some a => a
  | None => d
  end.

Module JournalOwlClient.
Record t := mk { client : AxiosInstance }.
End JournalOwlClient.
Abbreviation JournalOwlClient := JournalOwlClient.t.

(** The rejection handler installed by [interceptors.response.use]. *)
Definition onRejected (error : AxiosError) : exn :=
  match AxiosError.response error with
  | Some response =>
      let message :=
        or_string (option_map ApiError.message (ErrorResponse.data response))
                  (AxiosError.message error) in
      Error ("JournalOwl API Error (" ++ Number_toString (ErrorResponse.status response)
             ++ "): " ++ message)
  | None =>
      if AxiosError.request error
      then Error "JournalOwl API is unreachable. Please check your network connection."
      else Error ("Request failed: " ++ AxiosError.message error)
  end.

(** One [get] or [post] on the axios instance, through the interceptors: the
    call is recorded, a fulfilled exchange passes unchanged and a rejected
    one throws what [onRejected] throws. *)
Definition exchange {T} (c : Call) (answer : AxiosResult T) : M (AxiosResponse T) :=
  fun log =>
    match answer with
    | Fulfilled response => (Returned response, (log ++ [c])%list)
    | Rejected error => (Thrown (onRejected error), (log ++ [c])%list)
    end.

Section Client.

Variable net : Network.

(** [new JournalOwlClient(config)], with [axios.create] bound to [net]. *)
Definition JournalOwlClient_new (config : JournalOwlConfig) : outcome JournalOwlClient :=
  if (JournalOwlConfig.apiKey config =? "")%string
  then Thrown (Error "API key is required. Set JOURNALOWL_API_KEY environment variable.")
  else Returned (JournalOwlClient.mk (AxiosInstance.mk
         (or_string (JournalOwlConfig.baseUrl config) DEFAULT_BASE_URL)
         (or_number (JournalOwlConfig.timeout config) DEFAULT_TIMEOUT)
         [("X-API-Key", JournalOwlConfig.apiKey config);
          ("Content-Type", "application/json");
          ("User-Agent", "journalowl-mcp/0.1.0")]
         net)).

End Client.

Section Methods.

Variable this : JournalOwlClient.

Let network : Network := AxiosInstance.network (JournalOwlClient.client this).

(** [response.data.data!]: the assertion [!] is erased, the member is read as
    it is. *)
Definition payload {T} (response : AxiosResponse (ApiResponse T)) : option T :=
  ApiResponse.data (AxiosResponse.data response).

Definition listEntries (params : option ListEntriesParams) : M (option ListEntriesResult) :=
  let params := default params ListEntriesParams.empty in
  response <- exchange (Call.mk GET "/mcp/entries" (ParamsListEntries params))
                       (Network.get_entries network params) ;;
  ret (payload response).

Definition getEntry (entryId : option string) (includeAnalysis : option bool) : M JournalEntry :=
  let includeAnalysis := default includeAnalysis true in
  let url := "/mcp/entries/" ++ ToString entryId in
  response <- exchange (Call.mk GET url (ParamsGetEntry includeAnalysis))
                       (Network.get_entry network url includeAnalysis) ;;
  prop (payload response) "entry" EntryData.entry.

Definition createEntry (input : CreateEntryInput) : M JournalEntry :=
  response <- exchange (Call.mk POST "/mcp/entries" (BodyCreateEntry input))
                       (Network.post_entries network input) ;;
  prop (payload response) "entry" EntryData.entry.

Definition searchEntries (input : SearchEntriesInput) : M (option SearchResult) :=
  response <- exchange (Call.mk POST "/mcp/entries/search" (BodySearchEntries input))
                       (Network.post_entries_search network input) ;;
  ret (payload response).

Definition listWeeklyReviews (params : option ListReviewsParams) : M (option ListReviewsResult) :=
  let params := default params (ListReviewsParams.mk None None) in
  response <- exchange (Call.mk GET "/mcp/reviews/weekly" (ParamsListReviews params))
                       (Network.get_reviews_weekly network params) ;;
  ret (payload response).

Definition getWeeklyReview (reviewId : option string) : M WeeklyReview :=
  let reviewId := default reviewId "latest" in
  let url := "/mcp/reviews/weekly/" ++ reviewId in
  response <- exchange (Call.mk GET url NoConfig)
                       (Network.get_review_weekly network url) ;;
  prop (payload response) "review" ReviewData.review.

Definition getUserProfile : M UserProfile :=
  response <- exchange (Call.mk GET "/mcp/user/profile" NoConfig)
                       (Network.get_user_profile network) ;;
  prop (payload response) "profile" ProfileData.profile.

Definition getWritingStyle : M WritingStyle :=
  response <- exchange (Call.mk GET "/mcp/user/style" NoConfig)
                       (Network.get_user_style network) ;;
  prop (payload response) "style" StyleData.style.

End Methods.

(** [createClient(config?)]: the credential comes from the argument or from
    the environment. *)
Module Env.
Record t := mk {
  JOURNALOWL_API_KEY : option string;
  JOURNALOWL_API_URL : option string
}.
End Env.

Module PartialConfig.
Record t := mk {
  apiKey : option string;
  baseUrl : option string;
  timeout : option Z
}.
End PartialConfig.

Definition createClient (net : Network) (env : Env.t) (config : option PartialConfig.t)
  : outcome JournalOwlClient :=
  let apiKey :=
    or_undefined (match config with Some c => PartialConfig.apiKey c | None => None end)
                 (Env.JOURNALOWL_API_KEY env) in
  match apiKey with
  | Some ((String _ _) as apiKey) =>
      JournalOwlClient_new net (JournalOwlConfig.mk apiKey
        (or_undefined (match config with Some c => PartialConfig.baseUrl c | None => None end)
                      (Env.JOURNALOWL_API_URL env))
        (match config with Some c => PartialConfig.timeout c | None => None end))
  | _ =>
      Thrown (Error ("JOURNALOWL_API_KEY environment variable is required. " ++
                     "Get your API key from JournalOwl Settings > API Keys."))
  end.

(* ================================================================== *)
(** ** Tool catalog and handlers (tools/index.ts) *)

(** The arguments of a tool call: an object whose members are read by name.
    Every member may be missing; a present member has the type its schema
    declares. *)
Module Args.
Record t := mk {
  content : option string;
  mood : option string;
  tags : option TagsValue;
  date : option string;
  entry_id : option string;
  include_analysis : option bool;
  limit : option Z;
  offset : option Z;
  from_date : option string;
  to_date : option string;
  status : option string;
  query : option string;
  week : option string
}.
(** The object [{}]. *)
Definition empty : t :=
  mk None None None None None None None None None None None None None.
End Args.
Abbreviation Args := Args.t.

Module TextContent.
Record t := mk {
  type : string;
  text : string
}.
End TextContent.
Abbreviation TextContent := TextContent.t.

Module ToolResult.
Record t := mk { content : list TextContent }.
End ToolResult.
Abbreviation ToolResult := ToolResult.t.

(** [{ content: [{ type: 'text', text }] }] *)
Definition text_result (text : string) : ToolResult :=
  ToolResult.mk [TextContent.mk "text" text].

(** A tool descriptor: its name and, from the input schema, the declared
    properties and the required ones.  Descriptions are prose and left out. *)
Module Tool.
Record t := mk {
  name : string;
  properties : list string;
  required : list string
}.
End Tool.
Abbreviation Tool := Tool.t.

Definition createEntryTool : Tool :=
  Tool.mk "journal_create_entry" ["content"; "mood"; "tags"; "date"] ["content"].
Definition finalizeEntryTool : Tool :=
  Tool.mk "journal_finalize_entry" ["entry_id"] ["entry_id"].
Definition listEntriesTool : Tool :=
  Tool.mk "journal_list_entries"
          ["limit"; "offset"; "from_date"; "to_date"; "status"; "tags"] [].
Definition getEntryTool : Tool :=
  Tool.mk "journal_get_entry" ["entry_id"; "include_analysis"] ["entry_id"].
Definition searchEntriesTool : Tool :=
  Tool.mk "journal_search" ["query"; "limit"] ["query"].
Definition getWeeklyReviewTool : Tool :=
  Tool.mk "journal_get_weekly_review" ["week"] [].
Definition getWritingStyleTool : Tool :=
  Tool.mk "journal_get_writing_style" [] [].

Definition getAllTools : list Tool :=
  [ createEntryTool;
    finalizeEntryTool;
    listEntriesTool;
    getEntryTool;
    searchEntriesTool;
    getWeeklyReviewTool;
    getWritingStyleTool ].

(** *** What the handlers expect where the client declares something else *)

(** [handleCreateEntry] reads [result.entry] and [result.metadata] from what
    [createEntry] resolved to, and [timezone], [language], [writingStyle]
    from the metadata. *)
Module EntryMetadata.
Record t := mk {
  timezone : string;
  language : string;
  writingStyle : string
}.
End EntryMetadata.
Abbreviation EntryMetadata := EntryMetadata.t.

Module CreateEntryResult.
Record t := mk {
  entry : option JournalEntry;
  metadata : option EntryMetadata
}.
End CreateEntryResult.
Abbreviation CreateEntryResult := CreateEntryResult.t.

(** The members that interface [JournalEntry] declares (types/index.ts,
    7-18). *)
Definition JournalEntry_members : list string :=
  [ "id"; "title"; "content"; "mood"; "tags"; "status"; "date";
    "createdAt"; "updatedAt"; "analysis" ].

(** The members [entry] and [metadata] of the value [createEntry] resolves
    to.  That value is a [JournalEntry] (it is [response.data.data!.entry]
    already), and neither name is among [JournalEntry_members]: both reads
    give [undefined]. *)
Definition JournalEntry_as_result (result : JournalEntry) : CreateEntryResult :=
  CreateEntryResult.mk None None.

(** [handleFinalizeEntry] reads [result.entry] and [result.miniReview] from
    what [client.finalizeEntry] resolves to. *)
Module Sentiment.
Record t := mk {
  label : string;
  score : float
}.
End Sentiment.

Module MiniReview.
Record t := mk {
  mainTopic : string;
  sentiment : Sentiment.t;
  themes : list string;
  keyInsight : option string
}.
End MiniReview.
Abbreviation MiniReview := MiniReview.t.

Module FinalizeResult.
Record t := mk {
  entry : JournalEntry;
  miniReview : option MiniReview
}.
End FinalizeResult.
Abbreviation FinalizeResult := FinalizeResult.t.

(** The methods that the body of class [JournalOwlClient] defines
    (client/journalOwlClient.ts, 200-303). *)
Definition JournalOwlClient_methods : list string :=
  [ "listEntries"; "getEntry"; "createEntry"; "searchEntries";
    "listWeeklyReviews"; "getWeeklyReview"; "getUserProfile"; "getWritingStyle" ].

(** The member [client.finalizeEntry] of an instance of the class: it is not
    among the methods above, and the constructor sets no such property, so
    the read gives [undefined]. *)
Definition JournalOwlClient_finalizeEntry (client : JournalOwlClient)
  : option (option string -> M FinalizeResult) :=
  None.

Section Handlers.

Context {host : Host}.
Variable client : JournalOwlClient.

(** [insights.map(i => `- ${i}`).join('\n')], also used for themes and
    suggestions. *)
Definition bullets (xs : list string) : string :=
  join nl (map (fun i => "- " ++ i) xs).

Definition handleCreateEntry (args : Args) : M ToolResult :=
  result <- createEntry client
              (CreateEntryInput.mk (Args.content args) (Args.mood args)
                                   (Args.tags args) (Args.date args)) ;;
  let entry := CreateEntryResult.entry (JournalEntry_as_result result) in
  let metadata := CreateEntryResult.metadata (JournalEntry_as_result result) in
  entry <- prop entry "id" (fun e => e) ;;
  let text :=
    "Journal entry created!" ++ nl ++ nl ++
    "**ID:** " ++ JournalEntry.id entry ++ nl ++
    "**Title:** " ++ JournalEntry.title entry ++ nl ++
    "**Status:** " ++ EntryStatus_toString (JournalEntry.status entry) ++
      " (use journal_finalize_entry to generate AI analysis)" ++ nl ++
    "**Date:** " ++ toLocaleDateString (JournalEntry.date entry) ++ nl ++
    "**Mood:** " ++ or_string (JournalEntry.mood entry) "Not specified" ++ nl ++
    "**Tags:** " ++ (if (0 <? length (JournalEntry.tags entry))%nat
                     then join ", " (JournalEntry.tags entry)
                     else "None") in
  let text :=
    match metadata with
    | Some metadata =>
        text ++ nl ++ nl ++ "**Settings used:**" ++ nl ++
        "- Timezone: " ++ EntryMetadata.timezone metadata ++ nl ++
        "- Language: " ++ EntryMetadata.language metadata ++ nl ++
        "- Writing Style: " ++ EntryMetadata.writingStyle metadata
    | None => text
    end in
  ret (text_result text).

(** Lines 216-246 of [handleFinalizeEntry]: the text built from [result]. *)
Definition finalizeEntry_text (result : FinalizeResult) : string :=
  let entry := FinalizeResult.entry result in
  let miniReview := FinalizeResult.miniReview result in
  let text :=
    "Entry finalized with AI analysis!" ++ nl ++ nl ++
    "**ID:** " ++ JournalEntry.id entry ++ nl ++
    "**Title:** " ++ JournalEntry.title entry ++ nl ++
    "**Status:** " ++ EntryStatus_toString (JournalEntry.status entry) in
  let text :=
    match miniReview with
    | Some miniReview =>
        let text :=
          text ++ nl ++ nl ++ "**AI Analysis:**" ++ nl ++
          "- **Main Topic:** " ++ MiniReview.mainTopic miniReview ++ nl ++
          "- **Sentiment:** " ++ Sentiment.label (MiniReview.sentiment miniReview) ++
            " (" ++ toFixed (Sentiment.score (MiniReview.sentiment miniReview)) 2 ++ ")" ++ nl ++
          "- **Themes:** " ++ join ", " (MiniReview.themes miniReview) in
        if truthy (MiniReview.keyInsight miniReview)
        then text ++ nl ++ nl ++ "**Key Insight:**" ++ nl ++
             ToString (MiniReview.keyInsight miniReview)
        else text
    | None => text
    end in
  match JournalEntry.analysis entry with
  | Some analysis =>
      match EntryAnalysis.insights analysis with
      | Some insights =>
          if (0 <? length insights)%nat
          then text ++ nl ++ nl ++ "**Insights:**" ++ nl ++ bullets insights
          else text
      | None => text
      end
  | None => text
  end.

(** [handleFinalizeEntry], given what the read of [client.finalizeEntry]
    yields. *)
Definition handleFinalizeEntry_with
    (finalizeEntry : option (option string -> M FinalizeResult)) (args : Args)
  : M ToolResult :=
  result <- call finalizeEntry "client.finalizeEntry" (Args.entry_id args) ;;
  ret (text_result (finalizeEntry_text result)).

Definition handleFinalizeEntry (args : Args) : M ToolResult :=
  handleFinalizeEntry_with (JournalOwlClient_finalizeEntry client) args.

(** The arrow function mapped over [result.entries] in [handleListEntries]. *)
Definition entriesList_item (entry : JournalEntry) : string :=
  "- **" ++ JournalEntry.title entry ++ "** (" ++
    toLocaleDateString (JournalEntry.date entry) ++ ")" ++ nl ++
  "  ID: " ++ JournalEntry.id entry ++
  " | Status: " ++ EntryStatus_toString (JournalEntry.status entry) ++
  " | Tags: " ++ or_else (join ", " (JournalEntry.tags entry)) "none".

(** The sum [(args.offset || 0) + result.entries.length] is written with the
    addition of [Z]: it is the sum the code computes when the offset and the
    sum are safe integers. *)
Definition handleListEntries (args : Args) : M ToolResult :=
  result <- listEntries client
              (Some (ListEntriesParams.mk (Args.limit args) (Args.offset args)
                       (Args.from_date args) (Args.to_date args)
                       (Args.status args) (Args.tags args))) ;;
  entries <- prop result "entries" ListEntriesResult.entries ;;
  if (length entries =? 0)%nat
  then ret (text_result "No journal entries found matching your criteria.")
  else
    let entriesList := join (nl ++ nl) (map entriesList_item entries) in
    pagination <- prop result "pagination" ListEntriesResult.pagination ;;
    ret (text_result
           ("Found " ++ Number_toString (Pagination.total pagination) ++
            " entries (showing " ++ Number_toString (Z.of_nat (length entries)) ++ "):" ++
            nl ++ nl ++ entriesList ++
            (if Pagination.hasMore pagination
             then nl ++ nl ++ "More entries available. Use offset=" ++
                  Number_toString (or_number (Args.offset args) 0 + Z.of_nat (length entries)) ++
                  " to see more."
             else ""))).

(** The conditional expression bound to [sentimentLabel] in [handleGetEntry]. *)
Definition sentimentLabel (sentiment : float) : string :=
  if (0.3 <? sentiment)%float then "Positive"
  else if (sentiment <? -0.3)%float then "Negative"
  else "Neutral".

Definition handleGetEntry (args : Args) : M ToolResult :=
  entry <- getEntry client (Args.entry_id args)
             (Some (match Args.include_analysis args with
                    | Some false => false
                    | _ => true
                    end)) ;;
  let text :=
    "# " ++ JournalEntry.title entry ++ nl ++ nl ++
    "**Date:** " ++ toLocaleDateString (JournalEntry.date entry) ++ nl ++
    "**Mood:** " ++ or_string (JournalEntry.mood entry) "Not specified" ++ nl ++
    "**Tags:** " ++ or_else (join ", " (JournalEntry.tags entry)) "None" ++ nl ++
    "**Status:** " ++ EntryStatus_toString (JournalEntry.status entry) ++ nl ++ nl ++
    "---" ++ nl ++ nl ++ JournalEntry.content entry in
  let text :=
    match JournalEntry.analysis entry with
    | Some analysis =>
        let text := text ++ nl ++ nl ++ "---" ++ nl ++ nl ++ "## AI Analysis" ++ nl ++ nl in
        let text :=
          match EntryAnalysis.sentiment analysis with
          | Some sentiment =>
              text ++ "**Sentiment:** " ++ sentimentLabel sentiment ++
              " (" ++ toFixed sentiment 2 ++ ")" ++ nl ++ nl
          | None => text
          end in
        let text :=
          match EntryAnalysis.themes analysis with
          | Some themes =>
              if (0 <? length themes)%nat
              then text ++ "**Themes:** " ++ join ", " themes ++ nl ++ nl
              else text
          | None => text
          end in
        match EntryAnalysis.insights analysis with
        | Some insights =>
            if (0 <? length insights)%nat
            then text ++ "**Insights:**" ++ nl ++ bullets insights
            else text
        | None => text
        end
    | None => text
    end in
  ret (text_result text).

(** The arrow function mapped over [result.results] in [handleSearchEntries]. *)
Definition resultsList_item (entry : JournalEntry) : string :=
  "- **" ++ JournalEntry.title entry ++ "** (" ++
    toLocaleDateString (JournalEntry.date entry) ++ ")" ++ nl ++
  "  ID: " ++ JournalEntry.id entry ++ nl ++
  "  Preview: " ++ substring (JournalEntry.content entry) 0 150 ++ "...".

Definition handleSearchEntries (args : Args) : M ToolResult :=
  result <- searchEntries client
              (SearchEntriesInput.mk (Args.query args) (Args.limit args)) ;;
  count <- prop result "count" SearchResult.count ;;
  if (count =? 0)%Z
  then ret (text_result
              ("No entries found matching " ++ dq ++ ToString (Args.query args) ++ dq ++ "."))
  else
    results <- prop result "results" SearchResult.results ;;
    let resultsList := join (nl ++ nl) (map resultsList_item results) in
    ret (text_result
           ("Found " ++ Number_toString count ++ " entries for " ++
            dq ++ ToString (Args.query args) ++ dq ++ ":" ++ nl ++ nl ++ resultsList)).

Definition handleGetWeeklyReview (args : Args) : M ToolResult :=
  review <- getWeeklyReview client (Some (or_string (Args.week args) "latest")) ;;
  let text :=
    "# Weekly Review" ++ nl ++ nl ++
    "**Period:** " ++ toLocaleDateString (WeeklyReview.weekStart review) ++ " - " ++
      toLocaleDateString (WeeklyReview.weekEnd review) ++ nl ++
    "**Entries:** " ++ Number_toString (WeeklyReview.entriesCount review) ++ nl ++ nl ++
    "## Summary" ++ nl ++ nl ++ WeeklyReview.summary review ++ nl ++ nl ++
    "## Emotional Trend" ++ nl ++ nl ++ WeeklyReview.emotionalTrend review ++ nl ++ nl ++
    "## Key Themes" ++ nl ++ nl ++ bullets (WeeklyReview.themes review) ++ nl ++ nl ++
    "## Insights" ++ nl ++ nl ++ bullets (WeeklyReview.insights review) in
  ret (text_result text).

Definition handleGetWritingStyle : M ToolResult :=
  style <- getWritingStyle client ;;
  let text :=
    "# Your Writing Style" ++ nl ++ nl ++
    "**Current Style:** " ++ WritingStyle.currentStyle style ++ nl ++ nl ++
    "**Description:** " ++ WritingStyle.styleDescription style ++ nl ++ nl ++
    "**Voice Tone:** " ++ WritingStyle.voiceTone style ++ nl ++ nl ++
    "## Suggestions for Your Journaling" ++ nl ++ nl ++
    bullets (WritingStyle.suggestions style) in
  ret (text_result text).

(** The [switch] of [handleToolCall]; [args as any] is the untyped object
    itself. *)
Definition handleToolCall (toolName : string) (args : Args) : M ToolResult :=
  if (toolName =? "journal_create_entry")%string then handleCreateEntry args
  else if (toolName =? "journal_finalize_entry")%string then handleFinalizeEntry args
  else if (toolName =? "journal_list_entries")%string then handleListEntries args
  else if (toolName =? "journal_get_entry")%string then handleGetEntry args
  else if (toolName =? "journal_search")%string then handleSearchEntries args
  else if (toolName =? "journal_get_weekly_review")%string then handleGetWeeklyReview args
  else if (toolName =? "journal_get_writing_style")%string then handleGetWritingStyle
  else throw (Error ("Unknown tool: " ++ toolName)).

End Handlers.

(* ================================================================== *)
(** ** Resource catalog and handlers (resources/index.ts) *)

Module Resource.
Record t := mk {
  uri : string;
  name : string;
  description : string;
  mimeType : string
}.
End Resource.
Abbreviation Resource := Resource.t.

Module ResourceContent.
Record t := mk {
  uri : string;
  mimeType : string;
  text : string
}.
End ResourceContent.
Abbreviation ResourceContent := ResourceContent.t.

Module ResourceResult.
Record t := mk { contents : list ResourceContent }.
End ResourceResult.
Abbreviation ResourceResult := ResourceResult.t.

Definition profileResource : Resource :=
  Resource.mk "journalowl://user/profile" "User Profile"
    "User journaling profile with stats, preferences, and context for AI personalization"
    "text/plain".

Definition recentEntriesResource : Resource :=
  Resource.mk "journalowl://user/recent-entries" "Recent Journal Entries"
    "Metadata about the 5 most recent journal entries for conversation context"
    "text/plain".

Definition getAllResources : list Resource :=
  [ profileResource; recentEntriesResource ].

Section Resources.

Context {host : Host}.
Variable client : JournalOwlClient.

Definition handleProfileResource : M ResourceResult :=
  profile <- getUserProfile client ;;
  let text :=
    "JournalOwl User Profile" ++ nl ++
    "=======================" ++ nl ++
    nl ++
    "Username: " ++ UserProfile.username profile ++ nl ++
    "Email: " ++ UserProfile.email profile ++ nl ++
    "Timezone: " ++ UserProfile.timezone profile ++ nl ++
    nl ++
    "Journaling Stats:" ++ nl ++
    "- Journaling since: " ++ toLocaleDateString (UserProfile.journalingSince profile) ++ nl ++
    "- Total entries: " ++ Number_toString (UserProfile.totalEntries profile) ++ nl ++
    "- Current streak: " ++ Number_toString (UserProfile.currentStreak profile) ++ " days" ++ nl ++
    nl ++
    "Preferences:" ++ nl ++
    "- Writing style: " ++ or_string (UserProfile.preferredWritingStyle profile) "Default" ++ nl ++
    nl ++
    "Use this context to personalize your responses when helping with journaling." in
  ret (ResourceResult.mk
         [ResourceContent.mk "journalowl://user/profile" "text/plain" text]).

(** The arrow function mapped over [result.entries] in
    [handleRecentEntriesResource]. *)
Definition recent_item (entry : JournalEntry) : string :=
  "- " ++ JournalEntry.title entry ++ " (" ++
    toLocaleDateString (JournalEntry.date entry) ++ ")" ++ nl ++
  "  Mood: " ++ or_string (JournalEntry.mood entry) "Not specified" ++ nl ++
  "  Tags: " ++ or_else (join ", " (JournalEntry.tags entry)) "None" ++ nl ++
  "  ID: " ++ JournalEntry.id entry.

Definition handleRecentEntriesResource : M ResourceResult :=
  result <- listEntries client
              (Some (ListEntriesParams.mk (Some 5%Z) None None None None None)) ;;
  entries <- prop result "entries" ListEntriesResult.entries ;;
  if (length entries =? 0)%nat
  then ret (ResourceResult.mk
              [ResourceContent.mk "journalowl://user/recent-entries" "text/plain"
                 "No recent journal entries found. The user may be new to journaling."])
  else
    let entriesList := join (nl ++ nl) (map recent_item entries) in
    let text :=
      "Recent Journal Entries (Last " ++ Number_toString (Z.of_nat (length entries)) ++ ")" ++ nl ++
      "========================================" ++ nl ++
      nl ++
      entriesList ++ nl ++
      nl ++
      "Use these entries as context when helping the user with their journaling." ++ nl ++
      "You can use journal_get_entry with an ID to read the full content." in
    ret (ResourceResult.mk
           [ResourceContent.mk "journalowl://user/recent-entries" "text/plain" text]).

Definition handleResourceRead (uri : string) : M ResourceResult :=
  if (uri =? "journalowl://user/profile")%string then handleProfileResource
  else if (uri =? "journalowl://user/recent-entries")%string then handleRecentEntriesResource
  else throw (Error ("Unknown resource: " ++ uri)).

End Resources.

(* ================================================================== *)
(** ** Protocol front-end (index.ts) *)

Section Server.

Context {host : Host}.
Variable client : JournalOwlClient.

(** The handler registered for [ListToolsRequestSchema]. *)
Definition ListToolsRequest : list Tool := getAllTools.

(** The handler registered for [CallToolRequestSchema]; [args || {}]. *)
Definition CallToolRequest (name : string) (args : option Args) : M ToolResult :=
  try_catch (handleToolCall client name (default args Args.empty))
            (fun e => throw (McpError InternalError
                               ("Tool " ++ name ++ " failed: " ++ message e))).

(** The handler registered for [ListResourcesRequestSchema]. *)
Definition ListResourcesRequest : list Resource := getAllResources.

(** The handler registered for [ReadResourceRequestSchema]. *)
Definition ReadResourceRequest (uri : string) : M ResourceResult :=
  try_catch (handleResourceRead client uri)
            (fun e => throw (McpError InternalError
                               ("Resource " ++ uri ++ " failed: " ++ message e))).

End Server.

(** The constructor of [JournalOwlMcpServer]: a failure of [createClient] ends
    the process with status 1. *)
Inductive Startup :=
| Exit (code : Z)
| Serving (client : JournalOwlClient).

Definition JournalOwlMcpServer_new (net : Network) (env : Env.t) : Startup :=
  match createClient net env None with
  | Returned client => Serving client
  | Thrown _ => Exit 1
  end.

(* ================================================================== *)
(** ** Vocabulary of the specification *)

(** The first [n] characters of [s] (all of [s] when it is shorter). *)
Fixpoint first_chars (n : nat) (s : string) : string :=
  match n, s with
  | S n', String c s' => String c (first_chars n' s')
  | _, _ => EmptyString
  end.

(** The backend-error case of the client: an error that carries an HTTP
    status and a message. *)
Definition backend_error_message (status : Z) (msg : string) : string :=
  "JournalOwl API Error (" ++ Number_toString status ++ "): " ++ msg.

Definition is_backend_error (e : exn) : Prop :=
  exists status msg, e = Error (backend_error_message status msg).

(** A run of the client raises the backend-error case. *)
Definition raises_backend_error {A} (r : outcome A * Log) : Prop :=
  exists e, outcome_of r = Thrown e /\ is_backend_error e.

(** Member [name] of [data], for a method that reads it without a check. *)
Definition member_of {A B} (data : option A) (name : string) (get : A -> B) : outcome B :=
  match data with
  | Some d => Returned (get d)
  | None => Thrown (TypeError ("Cannot read properties of undefined (reading '" ++ name ++ "')"))
  end.

Definition unreachable_message : string :=
  "JournalOwl API is unreachable. Please check your network connection.".

Definition request_failed_message (msg : string) : string :=
  "Request failed: " ++ msg.

(** The message of a failure response: the one its body carries when there is
    a body and its message is not empty, the transport's own otherwise. *)
Definition failure_message (body : option ApiError) (transport : string) : string :=
  match body with
  | Some b => if (ApiError.message b =? "")%string then transport else ApiError.message b
  | None => transport
  end.

(** The names and identifiers the catalogs declare. *)
Definition declared_tools : list string := map Tool.name getAllTools.
Definition declared_resources : list string := map Resource.uri getAllResources.

(** [Number.isSafeInteger] on an integer: a magnitude of at most 2^53 - 1.
    A safe integer is a binary64 value, the sum of two of them is exact when
    it is safe again, and its string is its decimal expansion. *)
Definition safe_integer (n : Z) : bool := (Z.abs n <=? 9007199254740991)%Z.

(** The offset a [journal_list_entries] call asked for, 0 when absent. *)
Definition requested_offset (args : Args) : Z := default (Args.offset args) 0%Z.

(** The hint that closes the list when more entries remain. *)
Definition next_offset_hint (next : Z) : string :=
  nl ++ nl ++ "More entries available. Use offset=" ++ Number_toString next ++ " to see more.".

(** The text of a non-empty page, before the hint: the total, the number of
    entries shown, and one block per entry. *)
Definition page_text {host : Host} (result : ListEntriesResult) : string :=
  "Found " ++ Number_toString (Pagination.total (ListEntriesResult.pagination result)) ++
  " entries (showing " ++
  Number_toString (Z.of_nat (length (ListEntriesResult.entries result))) ++ "):" ++
  nl ++ nl ++ join (nl ++ nl) (map entriesList_item (ListEntriesResult.entries result)).

(** The preview of an entry in a search result: the first 150 characters of
    its content, then an ellipsis. *)
Definition preview (content : string) : string :=
  first_chars 150 content ++ "...".

(** The lines of a search hit that come before its preview. *)
Definition hit_head {host : Host} (entry : JournalEntry) : string :=
  "- **" ++ JournalEntry.title entry ++ "** (" ++
    toLocaleDateString (JournalEntry.date entry) ++ ")" ++ nl ++
  "  ID: " ++ JournalEntry.id entry ++ nl.

(** The text of a search that found something. *)
Definition hits_text {host : Host} (query : option string) (result : SearchResult) : string :=
  "Found " ++ Number_toString (SearchResult.count result) ++ " entries for " ++
  dq ++ ToString query ++ dq ++ ":" ++ nl ++ nl ++
  join (nl ++ nl) (map resultsList_item (SearchResult.results result)).

(** The parts of the text of [journal_get_entry]: the entry itself, the
    heading of the analysis, the sentiment line, the themes and the
    insights. *)
Definition entry_text {host : Host} (entry : JournalEntry) : string :=
  "# " ++ JournalEntry.title entry ++ nl ++ nl ++
  "**Date:** " ++ toLocaleDateString (JournalEntry.date entry) ++ nl ++
  "**Mood:** " ++ or_string (JournalEntry.mood entry) "Not specified" ++ nl ++
  "**Tags:** " ++ or_else (join ", " (JournalEntry.tags entry)) "None" ++ nl ++
  "**Status:** " ++ EntryStatus_toString (JournalEntry.status entry) ++ nl ++ nl ++
  "---" ++ nl ++ nl ++ JournalEntry.content entry.

Definition analysis_heading : string :=
  nl ++ nl ++ "---" ++ nl ++ nl ++ "## AI Analysis" ++ nl ++ nl.

Definition sentiment_line {host : Host} (label : string) (sentiment : float) : string :=
  "**Sentiment:** " ++ label ++ " (" ++ toFixed sentiment 2 ++ ")" ++ nl ++ nl.

Definition themes_line (themes : option (list string)) : string :=
  match themes with
  | Some ((_ :: _) as themes) => "**Themes:** " ++ join ", " themes ++ nl ++ nl
  | _ => ""
  end.

Definition insights_block (insights : option (list string)) : string :=
  match insights with
  | Some ((_ :: _) as insights) => "**Insights:**" ++ nl ++ bullets insights
  | _ => ""
  end.

(** The number a binary64 value stands for: [m * 2^e] with its sign, as an
    exact fraction, or one of the three values that are not numbers. *)
Inductive number_value :=
| NotANumber
| Infinite (negative : bool)
| Finite (q : Q).

Definition magnitude (m : positive) (e : Z) : Q :=
  match e with
  | Z0 => Z.pos m # 1
  | Z.pos p => (Z.pos m * 2 ^ Z.pos p) # 1
  | Z.neg p => Z.pos m # (2 ^ p)%positive
  end.

Definition value_of_spec (x : spec_float) : number_value :=
  match x with
  | S754_zero _ => Finite 0
  | S754_infinity negative => Infinite negative
  | S754_nan => NotANumber
  | S754_finite negative m e =>
      Finite (if negative then (- magnitude m e)%Q else magnitude m e)
  end.

Definition number_value_of (x : float) : number_value :=
  value_of_spec (Prim2SF x).

(** Strictly greater and strictly less than a fraction. *)
Definition greater_than (v : number_value) (q : Q) : Prop :=
  match v with
  | Infinite false => True
  | Finite r => (q < r)%Q
  | _ => False
  end.

Definition less_than (v : number_value) (q : Q) : Prop :=
  match v with
  | Infinite true => True
  | Finite r => (r < q)%Q
  | _ => False
  end.

(** The mantissa of the binary64 value closest to 3/10, which is what the
    literal [0.3] denotes: [threshold_mantissa * 2^-54]. *)
Definition threshold_mantissa : positive := 5404319552844595.

(** The three fixed texts for an empty result. *)
Definition no_entries_text : string :=
  "No journal entries found matching your criteria.".

Definition no_hits_text (query : string) : string :=
  "No entries found matching " ++ dq ++ query ++ dq ++ ".".

Definition no_recent_entries_text : string :=
  "No recent journal entries found. The user may be new to journaling.".

(** The calls each read operation issues. *)
Definition list_entries_call (params : ListEntriesParams) : Call :=
  Call.mk GET "/mcp/entries" (ParamsListEntries params).

Definition list_entries_params (args : Args) : ListEntriesParams :=
  ListEntriesParams.mk (Args.limit args) (Args.offset args) (Args.from_date args)
                       (Args.to_date args) (Args.status args) (Args.tags args).

Definition recent_entries_params : ListEntriesParams :=
  ListEntriesParams.mk (Some 5%Z) None None None None None.

Definition get_profile_call : Call := Call.mk GET "/mcp/user/profile" NoConfig.

Definition search_input (args : Args) : SearchEntriesInput :=
  SearchEntriesInput.mk (Args.query args) (Args.limit args).

Definition search_call (args : Args) : Call :=
  Call.mk POST "/mcp/entries/search" (BodySearchEntries (search_input args)).

Definition create_input (args : Args) : CreateEntryInput :=
  CreateEntryInput.mk (Args.content args) (Args.mood args) (Args.tags args) (Args.date args).

Definition get_entry_url (args : Args) : string :=
  "/mcp/entries/" ++ ToString (Args.entry_id args).

Definition get_entry_flag (args : Args) : bool :=
  match Args.include_analysis args with
  | Some false => false
  | _ => true
  end.

(** A 2xx response whose body is the envelope [env]. *)
Definition ok_response {T} (env : ApiResponse T) : AxiosResult (ApiResponse T) :=
  Fulfilled (AxiosResponse.mk 200%Z env).

(* ================================================================== *)
(** ** Example data *)

Module Examples.

(** A host for the examples.  Its locale shows a date as it is stored.  Its
    [toFixed] rounds the exact value of [x * 10^digits] to the nearest
    integer, the larger one on a tie, and writes it with [digits] decimals;
    that is the ECMAScript result for every magnitude below 10^21, which
    covers the scores of the examples. *)
Fixpoint zeros (k : nat) : string :=
  match k with
  | O => EmptyString
  | S k' => String "0"%char (zeros k')
  end.

Definition fixed_point (negative : bool) (n : Z) (digits : Z) : string :=
  let f := Z.to_nat digits in
  let m := Number_toString n in
  let m := zeros (S f - String.length m) ++ m in
  let k := String.length m in
  (if negative then "-" else EmptyString) ++
  (if (f =? 0)%nat then m
   else String.substring 0 (k - f) m ++ "." ++ String.substring (k - f) f m).

Definition toFixed_exact (x : float) (digits : Z) : string :=
  match Prim2SF x with
  | S754_nan => "NaN"
  | S754_infinity negative => if negative then "-Infinity" else "Infinity"
  | S754_zero _ => fixed_point false 0 digits
  | S754_finite negative m e =>
      let scaled := (Z.pos m * 10 ^ digits)%Z in
      let n :=
        match e with
        | Z.neg p => ((2 * scaled + 2 ^ Z.pos p) / 2 ^ (Z.pos p + 1))%Z
        | _ => (scaled * 2 ^ e)%Z
        end in
      fixed_point negative n digits
  end.

Definition host : Host := {|
  toLocaleDateString := fun d => d;
  toFixed := toFixed_exact
|}.

Definition walk : JournalEntry :=
  JournalEntry.mk "e1" "Morning walk" "Walked along the river before work."
    (Some "peaceful") ["health"; "nature"] in_progress "2024-01-15"
    "2024-01-15T08:00:00Z" "2024-01-15T08:00:00Z" None.

Definition review_day : JournalEntry :=
  JournalEntry.mk "e2" "Release day" "The release went out without a hitch."
    None [] completed "2024-01-16"
    "2024-01-16T18:00:00Z" "2024-01-16T19:00:00Z"
    (Some (EntryAnalysis.mk (Some 0.5%float) (Some ["work"]) (Some ["Ship small."]))).

Definition page : ListEntriesResult :=
  ListEntriesResult.mk [walk; review_day] (Pagination.mk 12 2 10 true).

Definition empty_page : ListEntriesResult :=
  ListEntriesResult.mk [] (Pagination.mk 0 20 0 false).

(** An entry whose content has 160 characters. *)
Definition ten : string := "0123456789".

Definition long_note : JournalEntry :=
  JournalEntry.mk "e3" "Numbers" 
    (ten ++ ten ++ ten ++ ten ++ ten ++ ten ++ ten ++ ten ++
     ten ++ ten ++ ten ++ ten ++ ten ++ ten ++ ten ++ ten)
    None [] draft "2024-01-17" "2024-01-17T07:00:00Z" "2024-01-17T07:00:00Z" None.

Definition hits : SearchResult := SearchResult.mk "river" [walk] 1.
Definition no_hits : SearchResult := SearchResult.mk "tax" [] 0.

Definition profile : UserProfile :=
  UserProfile.mk "u1" "sam" "sam@example.org" "Europe/Rome" "2023-05-01" 42 3 None.

(** No endpoint can be reached. *)
Definition unreachable : AxiosError := AxiosError.mk None true "Network Error".

Definition offline : Network :=
  Network.mk (fun _ => Rejected unreachable) (fun _ _ => Rejected unreachable)
             (fun _ => Rejected unreachable) (fun _ => Rejected unreachable)
             (fun _ => Rejected unreachable) (fun _ => Rejected unreachable)
             (Rejected unreachable) (Rejected unreachable).

(** A backend whose list endpoint answers with [env] and whose other
    endpoints cannot be reached. *)
Definition listing (env : ApiResponse ListEntriesResult) : Network :=
  Network.mk (fun _ => ok_response env) (Network.get_entry offline)
             (Network.post_entries offline) (Network.post_entries_search offline)
             (Network.get_reviews_weekly offline) (Network.get_review_weekly offline)
             (Network.get_user_profile offline) (Network.get_user_style offline).

Definition searching (env : ApiResponse SearchResult) : Network :=
  Network.mk (Network.get_entries offline) (Network.get_entry offline)
             (Network.post_entries offline) (fun _ => ok_response env)
             (Network.get_reviews_weekly offline) (Network.get_review_weekly offline)
             (Network.get_user_profile offline) (Network.get_user_style offline).

(** A backend that answers every read and create of an entry with [env]. *)
Definition serving_entry (env : ApiResponse EntryData) : Network :=
  Network.mk (Network.get_entries offline) (fun _ _ => ok_response env)
             (fun _ => ok_response env) (Network.post_entries_search offline)
             (Network.get_reviews_weekly offline) (Network.get_review_weekly offline)
             (Network.get_user_profile offline) (Network.get_user_style offline).

Definition config : JournalOwlConfig := JournalOwlConfig.mk "jowl_sk_test" None None.

(** The client [new JournalOwlClient(config)] builds over [net]. *)
Definition client (net : Network) : JournalOwlClient :=
  JournalOwlClient.mk (AxiosInstance.mk DEFAULT_BASE_URL DEFAULT_TIMEOUT
    [("X-API-Key", "jowl_sk_test"); ("Content-Type", "application/json");
     ("User-Agent", "journalowl-mcp/0.1.0")] net).

(** An envelope that says ["error"] and still carries data, and one without
    data. *)
Definition error_with_data : ApiResponse ListEntriesResult :=
  ApiResponse.mk ApiStatus.error (Some page) (Some "partial result").

Definition success_without_data : ApiResponse ListEntriesResult :=
  ApiResponse.mk ApiStatus.success None None.

Definition success {T} (d : T) : ApiResponse T :=
  ApiResponse.mk ApiStatus.success (Some d) None.

(** A failure response whose body carries an empty message. *)
Definition empty_message_failure : AxiosError :=
  AxiosError.mk (Some (ErrorResponse.mk 500 (Some (ApiError.mk "" None))))
                true "Request failed with status code 500".

Definition args_content (content : string) : Args :=
  Args.mk (Some content) None None None None None None None None None None None None.

Definition args_entry_id (entry_id : string) : Args :=
  Args.mk None None None None (Some entry_id) None None None None None None None None.

Definition args_query (query : string) : Args :=
  Args.mk None None None None None None None None None None None (Some query) None.

Definition args_offset (offset : Z) : Args :=
  Args.mk None None None None None None None (Some offset) None None None None None.

End Examples.

(* ================================================================== *)
(** ** Vocabulary for the properties of the remaining code *)

(** The review a [journal_get_weekly_review] call asks for. *)
Definition requested_review (args : Args) : string :=
  match Args.week args with
  | Some (String c w) => String c w
  | _ => "latest"
  end.

(** The calls a tool issues, read off its name and its arguments alone. *)
Definition tool_calls (toolName : string) (args : Args) : list Call :=
  if (toolName =? "journal_create_entry")%string
  then [Call.mk POST "/mcp/entries" (BodyCreateEntry (create_input args))]
  else if (toolName =? "journal_list_entries")%string
  then [list_entries_call (list_entries_params args)]
  else if (toolName =? "journal_get_entry")%string
  then [Call.mk GET (get_entry_url args) (ParamsGetEntry (get_entry_flag args))]
  else if (toolName =? "journal_search")%string
  then [search_call args]
  else if (toolName =? "journal_get_weekly_review")%string
  then [Call.mk GET ("/mcp/reviews/weekly/" ++ requested_review args) NoConfig]
  else if (toolName =? "journal_get_writing_style")%string
  then [Call.mk GET "/mcp/user/style" NoConfig]
  else [].

(** A network on which every exchange is rejected with [e]. *)
Definition rejecting (e : AxiosError) : Network :=
  Network.mk (fun _ => Rejected e) (fun _ _ => Rejected e)
             (fun _ => Rejected e) (fun _ => Rejected e)
             (fun _ => Rejected e) (fun _ => Rejected e)
             (Rejected e) (Rejected e).

(** The tools whose handler reaches the backend through a method the client
    has. *)
Definition served_tools : list string :=
  [ "journal_create_entry"; "journal_list_entries"; "journal_get_entry";
    "journal_search"; "journal_get_weekly_review"; "journal_get_writing_style" ].

(** The message of the [TypeError] for a read of member [name] of
    [undefined]. *)
Definition undefined_read (name : string) : exn :=
  TypeError ("Cannot read properties of undefined (reading '" ++ name ++ "')").

(** The header [name] of the client built by the constructor. *)
Definition header (name : string) (client : JournalOwlClient) : option string :=
  option_map snd
    (find (fun h => (fst h =? name)%string)
          (AxiosInstance.headers (JournalOwlClient.client client))).

(** Further example data. *)
Module MoreExamples.

Definition args_week (week : string) : Args :=
  Args.mk None None None None None None None None None None None None (Some week).

(** An entry that has been analysed, with nothing in the analysis. *)
Definition bare_analysis : JournalEntry :=
  JournalEntry.mk "e4" "Quiet day" "Nothing much." None [] completed "2024-01-18"
    "2024-01-18T20:00:00Z" "2024-01-18T20:00:00Z"
    (Some (EntryAnalysis.mk None None None)).

Definition no_data {T} : ApiResponse T := ApiResponse.mk ApiStatus.success None None.

Definition not_found : AxiosError :=
  AxiosError.mk (Some (ErrorResponse.mk 404 (Some (ApiError.mk "Entry not found" None))))
                true "Request failed with status code 404".

End MoreExamples.

(* ================================================================== *)
(** * Properties *)

(** ** Strings *)

Lemma append_assoc (a b c : string) : (a ++ b) ++ c = a ++ (b ++ c).
Proof.
  induction a as [|ch a IH]; simpl.
  - reflexivity.
  - now rewrite IH.
Qed.

Lemma substring_from_start (n : nat) (s : string) :
  String.substring 0 n s = first_chars n s.
Proof.
  revert s; induction n as [|n IH]; intros [|c s]; simpl; try reflexivity.
  now rewrite IH.
Qed.

Lemma first_chars_all (n : nat) (s : string) :
  String.length s <= n -> first_chars n s = s.
Proof.
  revert n; induction s as [|c s IH]; intros [|n] H; simpl in *; try reflexivity.
  - lia.
  - rewrite IH by lia. reflexivity.
Qed.

Lemma first_chars_min (n m : nat) (s : string) :
  String.length s <= m -> first_chars (Nat.min n m) s = first_chars n s.
Proof.
  revert n m; induction s as [|c s IH]; intros [|n] [|m] H; simpl in *;
    try reflexivity; try lia.
  rewrite IH by lia. reflexivity.
Qed.

Lemma first_chars_length (n : nat) (s : string) :
  String.length (first_chars n s) = Nat.min n (String.length s).
Proof.
  revert s; induction n as [|n IH]; intros [|c s]; simpl; try reflexivity.
  now rewrite IH.
Qed.

(** [substring(0, n)] is the first [n] code units. *)
Lemma substring_first_chars (s : string) (n : nat) :
  substring s 0 (Z.of_nat n) = first_chars n s.
Proof.
  unfold substring.
  set (len := String.length s).
  replace (Z.min (Z.max 0 0) (Z.of_nat len)) with 0%Z by lia.
  replace (Z.min 0 (Z.min (Z.max (Z.of_nat n) 0) (Z.of_nat len))) with 0%Z by lia.
  replace (Z.max 0 (Z.min (Z.max (Z.of_nat n) 0) (Z.of_nat len)) - 0)%Z
    with (Z.of_nat (Nat.min n len)) by lia.
  rewrite Nat2Z.id. change (Z.to_nat 0) with 0.
  rewrite substring_from_start.
  apply first_chars_min. unfold len. lia.
Qed.

(** ** Effects *)

Lemma exchange_fulfilled {T} (c : Call) (response : AxiosResponse T) (log : Log) :
  exchange c (Fulfilled response) log = (Returned response, (log ++ [c])%list).
Proof. reflexivity. Qed.

Lemma exchange_rejected {T} (c : Call) (e : AxiosError) (log : Log) :
  @exchange T c (Rejected e) log = (Thrown (onRejected e), (log ++ [c])%list).
Proof. reflexivity. Qed.

(** Every exchange records exactly its own call. *)
Lemma exchange_calls {T} (c : Call) (answer : AxiosResult T) (log : Log) :
  calls_of (exchange c answer log) = (log ++ [c])%list.
Proof. destruct answer; reflexivity. Qed.

Lemma prop_calls {A B} (x : option A) (name : string) (get : A -> B) (log : Log) :
  calls_of (prop x name get log) = log.
Proof. destruct x; reflexivity. Qed.

Lemma bind_calls {A B} (m : M A) (k : A -> M B) (log : Log) :
  calls_of (bind m k log) =
  match outcome_of (m log) with
  | Returned a => calls_of (k a (calls_of (m log)))
  | Thrown _ => calls_of (m log)
  end.
Proof.
  unfold bind, calls_of, outcome_of. destruct (m log) as [[a|e] log']; reflexivity.
Qed.

(** ** Transport client *)

Lemma TypeError_not_backend_error (msg : string) : ~ is_backend_error (TypeError msg).
Proof. intros (status & m & H). discriminate H. Qed.

Section ClientContract.

Variable this : JournalOwlClient.

Let net : Network := AxiosInstance.network (JournalOwlClient.client this).

Lemma listEntries_fulfilled params response log :
  Network.get_entries net (default params ListEntriesParams.empty) = Fulfilled response ->
  listEntries this params log =
  (Returned (payload response),
   (log ++ [list_entries_call (default params ListEntriesParams.empty)])%list).
Proof.
  intros H. unfold listEntries, bind. fold net. rewrite H. reflexivity.
Qed.

Lemma searchEntries_fulfilled input response log :
  Network.post_entries_search net input = Fulfilled response ->
  searchEntries this input log =
  (Returned (payload response),
   (log ++ [Call.mk POST "/mcp/entries/search" (BodySearchEntries input)])%list).
Proof.
  intros H. unfold searchEntries, bind. fold net. rewrite H. reflexivity.
Qed.

Lemma listWeeklyReviews_fulfilled params response log :
  Network.get_reviews_weekly net (default params (ListReviewsParams.mk None None))
    = Fulfilled response ->
  outcome_of (listWeeklyReviews this params log) = Returned (payload response).
Proof.
  intros H. unfold listWeeklyReviews, bind. fold net. rewrite H. reflexivity.
Qed.

Lemma getEntry_fulfilled entryId includeAnalysis response log :
  Network.get_entry net ("/mcp/entries/" ++ ToString entryId) (default includeAnalysis true)
    = Fulfilled response ->
  getEntry this entryId includeAnalysis log =
  prop (payload response) "entry" EntryData.entry
       (log ++ [Call.mk GET ("/mcp/entries/" ++ ToString entryId)
                        (ParamsGetEntry (default includeAnalysis true))])%list.
Proof.
  intros H. unfold getEntry, bind. fold net. rewrite H. reflexivity.
Qed.

Lemma createEntry_fulfilled input response log :
  Network.post_entries net input = Fulfilled response ->
  createEntry this input log =
  prop (payload response) "entry" EntryData.entry
       (log ++ [Call.mk POST "/mcp/entries" (BodyCreateEntry input)])%list.
Proof.
  intros H. unfold createEntry, bind. fold net. rewrite H. reflexivity.
Qed.

Lemma getWeeklyReview_fulfilled reviewId response log :
  Network.get_review_weekly net ("/mcp/reviews/weekly/" ++ default reviewId "latest")
    = Fulfilled response ->
  getWeeklyReview this reviewId log =
  prop (payload response) "review" ReviewData.review
       (log ++ [Call.mk GET ("/mcp/reviews/weekly/" ++ default reviewId "latest") NoConfig])%list.
Proof.
  intros H. unfold getWeeklyReview, bind. fold net. rewrite H. reflexivity.
Qed.

Lemma getUserProfile_fulfilled response log :
  Network.get_user_profile net = Fulfilled response ->
  getUserProfile this log =
  prop (payload response) "profile" ProfileData.profile (log ++ [get_profile_call])%list.
Proof.
  intros H. unfold getUserProfile, bind. fold net. rewrite H. reflexivity.
Qed.

Lemma getWritingStyle_fulfilled response log :
  Network.get_user_style net = Fulfilled response ->
  getWritingStyle this log =
  prop (payload response) "style" StyleData.style
       (log ++ [Call.mk GET "/mcp/user/style" NoConfig])%list.
Proof.
  intros H. unfold getWritingStyle, bind. fold net. rewrite H. reflexivity.
Qed.

End ClientContract.

(** What a method that projects a member out of the payload ends with. *)
Lemma prop_outcome {A B} (x : option A) (name : string) (get : A -> B) (log : Log) :
  outcome_of (prop x name get log) = member_of x name get.
Proof. destruct x; reflexivity. Qed.

Lemma member_of_not_backend_error {A B} (data : option A) name (get : A -> B) e :
  member_of data name get = Thrown e -> ~ is_backend_error e.
Proof.
  destruct data; simpl; intros H; inversion H; subst.
  apply TypeError_not_backend_error.
Qed.

(** C1, as amended.  On a fulfilled exchange no method of the client looks at
    the [status] member of the envelope.  [listEntries], [searchEntries] and
    [listWeeklyReviews] return the [data] member as it is, [undefined]
    included; [getEntry], [createEntry], [getWeeklyReview], [getUserProfile]
    and [getWritingStyle] return the member they read from [data] when it is
    present, and end in a [TypeError] (which is not the backend-error case)
    when it is absent. *)
Theorem client_returns_data_whatever_status (this : JournalOwlClient) (log : Log) :
  let net := AxiosInstance.network (JournalOwlClient.client this) in
  (forall params response,
      Network.get_entries net (default params ListEntriesParams.empty) = Fulfilled response ->
      outcome_of (listEntries this params log)
      = Returned (ApiResponse.data (AxiosResponse.data response)))
  /\ (forall input response,
      Network.post_entries_search net input = Fulfilled response ->
      outcome_of (searchEntries this input log)
      = Returned (ApiResponse.data (AxiosResponse.data response)))
  /\ (forall params response,
      Network.get_reviews_weekly net (default params (ListReviewsParams.mk None None))
        = Fulfilled response ->
      outcome_of (listWeeklyReviews this params log)
      = Returned (ApiResponse.data (AxiosResponse.data response)))
  /\ (forall entryId includeAnalysis response,
      Network.get_entry net ("/mcp/entries/" ++ ToString entryId) (default includeAnalysis true)
        = Fulfilled response ->
      outcome_of (getEntry this entryId includeAnalysis log)
      = member_of (ApiResponse.data (AxiosResponse.data response)) "entry" EntryData.entry)
  /\ (forall input response,
      Network.post_entries net input = Fulfilled response ->
      outcome_of (createEntry this input log)
      = member_of (ApiResponse.data (AxiosResponse.data response)) "entry" EntryData.entry)
  /\ (forall reviewId response,
      Network.get_review_weekly net ("/mcp/reviews/weekly/" ++ default reviewId "latest")
        = Fulfilled response ->
      outcome_of (getWeeklyReview this reviewId log)
      = member_of (ApiResponse.data (AxiosResponse.data response)) "review" ReviewData.review)
  /\ (forall response,
      Network.get_user_profile net = Fulfilled response ->
      outcome_of (getUserProfile this log)
      = member_of (ApiResponse.data (AxiosResponse.data response)) "profile" ProfileData.profile)
  /\ (forall response,
      Network.get_user_style net = Fulfilled response ->
      outcome_of (getWritingStyle this log)
      = member_of (ApiResponse.data (AxiosResponse.data response)) "style" StyleData.style)
  /\ (forall A B (data : option A) name (get : A -> B) e,
      member_of data name get = Thrown e -> ~ is_backend_error e).
Proof.
  cbv zeta. repeat match goal with |- _ /\ _ => split end; intros.
  - erewrite listEntries_fulfilled by eassumption. reflexivity.
  - erewrite searchEntries_fulfilled by eassumption. reflexivity.
  - erewrite listWeeklyReviews_fulfilled by eassumption. reflexivity.
  - erewrite getEntry_fulfilled by eassumption. apply prop_outcome.
  - erewrite createEntry_fulfilled by eassumption. apply prop_outcome.
  - erewrite getWeeklyReview_fulfilled by eassumption. apply prop_outcome.
  - erewrite getUserProfile_fulfilled by eassumption. apply prop_outcome.
  - erewrite getWritingStyle_fulfilled by eassumption. apply prop_outcome.
  - eapply member_of_not_backend_error; eassumption.
Qed.

(** The amended C1 at an envelope whose status is ["error"]: the page it
    carries is returned. *)
Lemma client_returns_data_whatever_status_witness :
  outcome_of (listEntries (Examples.client (Examples.listing Examples.error_with_data)) None [])
  = Returned (Some Examples.page).
Proof.
  apply (proj1 (client_returns_data_whatever_status
                  (Examples.client (Examples.listing Examples.error_with_data)) []) None
               (AxiosResponse.mk 200%Z Examples.error_with_data)).
  reflexivity.
Defined.

(** C1 as stated fails.  An envelope with status ["error"] that carries data
    makes [listEntries] return that data, and an envelope without data makes
    it return [undefined]; neither run raises the backend-error case. *)
Lemma error_envelope_is_returned :
  ApiResponse.status Examples.error_with_data = ApiStatus.error
  /\ listEntries (Examples.client (Examples.listing Examples.error_with_data)) None []
     = (Returned (Some Examples.page), [list_entries_call ListEntriesParams.empty])
  /\ ~ raises_backend_error
        (listEntries (Examples.client (Examples.listing Examples.error_with_data)) None [])
  /\ ApiResponse.data Examples.success_without_data = None
  /\ listEntries (Examples.client (Examples.listing Examples.success_without_data)) None []
     = (Returned None, [list_entries_call ListEntriesParams.empty])
  /\ ~ raises_backend_error
        (listEntries (Examples.client (Examples.listing Examples.success_without_data)) None []).
Proof.
  repeat split; try reflexivity.
  - intros (e & H & _). discriminate H.
  - intros (e & H & _). discriminate H.
Qed.

(** The three messages cannot be confused with one another. *)
Lemma error_kinds_distinct (status : Z) (m m' : string) :
  backend_error_message status m <> unreachable_message
  /\ backend_error_message status m <> request_failed_message m'
  /\ unreachable_message <> request_failed_message m'.
Proof.
  unfold backend_error_message, unreachable_message, request_failed_message.
  repeat split; simpl; discriminate.
Qed.

(** C6, as amended.  A rejected exchange makes the client throw exactly one
    of three errors.  With a response: the backend error, carrying the HTTP
    status and the message of the body when the body is present and its
    message is not empty, the transport's own message otherwise.  Without a
    response but with a request: the unreachable error.  With neither: the
    request-failed error with the transport's message.  The three differ, and
    a fulfilled exchange throws nothing. *)
Theorem rejected_exchange_raises_one_of_three (error : AxiosError) :
  (forall response,
      AxiosError.response error = Some response ->
      onRejected error
      = Error (backend_error_message (ErrorResponse.status response)
                 (failure_message (ErrorResponse.data response) (AxiosError.message error))))
  /\ (AxiosError.response error = None -> AxiosError.request error = true ->
      onRejected error = Error unreachable_message)
  /\ (AxiosError.response error = None -> AxiosError.request error = false ->
      onRejected error = Error (request_failed_message (AxiosError.message error)))
  /\ (forall T (c : Call) (log : Log),
      @exchange T c (Rejected error) log = (Thrown (onRejected error), (log ++ [c])%list))
  /\ (forall T (c : Call) (response : AxiosResponse T) (log : Log),
      exchange c (Fulfilled response) log = (Returned response, (log ++ [c])%list))
  /\ (forall status m m',
      backend_error_message status m <> unreachable_message
      /\ backend_error_message status m <> request_failed_message m'
      /\ unreachable_message <> request_failed_message m').
Proof.
  destruct error as [response request transport]; simpl.
  split; [|split; [|split; [|split; [|split]]]].
  - intros r ->. unfold onRejected; simpl.
    destruct r as [status [body|]]; simpl; [|reflexivity].
    unfold or_else, backend_error_message, failure_message.
    destruct (ApiError.message body =? "")%string; reflexivity.
  - intros -> ->. reflexivity.
  - intros -> ->. reflexivity.
  - reflexivity.
  - reflexivity.
  - apply error_kinds_distinct.
Qed.

(** The amended C6 at a 404 whose body says ["Entry not found"]. *)
Lemma rejected_exchange_raises_one_of_three_witness :
  onRejected (AxiosError.mk (Some (ErrorResponse.mk 404 (Some (ApiError.mk "Entry not found" None))))
                            true "Request failed with status code 404")
  = Error "JournalOwl API Error (404): Entry not found".
Proof.
  apply (proj1 (rejected_exchange_raises_one_of_three
                  (AxiosError.mk (Some (ErrorResponse.mk 404
                                          (Some (ApiError.mk "Entry not found" None))))
                                 true "Request failed with status code 404"))
               (ErrorResponse.mk 404 (Some (ApiError.mk "Entry not found" None)))).
  reflexivity.
Defined.

(** C6 as stated fails.  The failure response below has a body, and the body
    carries the empty message; the error raised does not carry that message
    but the transport's own. *)
Lemma empty_body_message_is_replaced :
  AxiosError.response Examples.empty_message_failure
  = Some (ErrorResponse.mk 500 (Some (ApiError.mk "" None)))
  /\ onRejected Examples.empty_message_failure
     = Error "JournalOwl API Error (500): Request failed with status code 500"
  /\ onRejected Examples.empty_message_failure
     <> Error (backend_error_message 500 "").
Proof.
  split; [|split].
  - reflexivity.
  - reflexivity.
  - vm_compute. discriminate.
Qed.

(** ** Dispatch by name *)

Lemma declared_tools_are_seven :
  declared_tools =
  [ "journal_create_entry"; "journal_finalize_entry"; "journal_list_entries";
    "journal_get_entry"; "journal_search"; "journal_get_weekly_review";
    "journal_get_writing_style" ].
Proof. reflexivity. Qed.

(** Deciding [x =? name] from the fact that [x] is not in a list of literals
    that contains [name]. *)
Ltac other_name H x name :=
  let E := fresh "E" in
  destruct (String.eqb_spec x name) as [E|E];
  [ exfalso; apply H; rewrite E; simpl; tauto | clear E ].

Section Dispatch.

Context {host : Host}.
Variable client : JournalOwlClient.

Lemma handleToolCall_unknown toolName args log :
  ~ In toolName declared_tools ->
  handleToolCall client toolName args log
  = (Thrown (Error ("Unknown tool: " ++ toolName)), log).
Proof.
  intros H. unfold handleToolCall.
  other_name H toolName "journal_create_entry".
  other_name H toolName "journal_finalize_entry".
  other_name H toolName "journal_list_entries".
  other_name H toolName "journal_get_entry".
  other_name H toolName "journal_search".
  other_name H toolName "journal_get_weekly_review".
  other_name H toolName "journal_get_writing_style".
  reflexivity.
Qed.

Lemma handleResourceRead_unknown uri log :
  ~ In uri declared_resources ->
  handleResourceRead client uri log
  = (Thrown (Error ("Unknown resource: " ++ uri)), log).
Proof.
  intros H. unfold handleResourceRead.
  other_name H uri "journalowl://user/profile".
  other_name H uri "journalowl://user/recent-entries".
  reflexivity.
Qed.

(** Whatever the backend answers, reading the profile issues one call. *)
Lemma handleProfileResource_calls log :
  calls_of (handleProfileResource client log) = (log ++ [get_profile_call])%list.
Proof.
  unfold handleProfileResource, getUserProfile, bind, exchange.
  destruct (Network.get_user_profile _) as [response|e]; [|reflexivity].
  unfold payload. destruct (ApiResponse.data _); reflexivity.
Qed.

(** Whatever the backend answers, reading the recent entries issues one
    call, with limit 5 and no other filter. *)
Lemma handleRecentEntriesResource_calls log :
  calls_of (handleRecentEntriesResource client log)
  = (log ++ [list_entries_call recent_entries_params])%list.
Proof.
  unfold handleRecentEntriesResource, listEntries, bind, exchange; simpl.
  destruct (Network.get_entries _ _) as [response|e]; [|reflexivity].
  unfold payload. destruct (ApiResponse.data _) as [result|]; [|reflexivity].
  simpl. destruct (ListEntriesResult.entries result); reflexivity.
Qed.

End Dispatch.

(** C7.  A name that is not one of the seven declared tool names makes
    [handleToolCall] throw the unknown-tool error without any call of the
    client, and the front-end reports it as a protocol error that carries the
    message; each declared name runs the handler of that tool. *)
Theorem undeclared_tool_is_rejected_without_a_call
    {host : Host} (client : JournalOwlClient) (args : Args) (log : Log) :
  (forall toolName,
      ~ In toolName declared_tools ->
      handleToolCall client toolName args log
      = (Thrown (Error ("Unknown tool: " ++ toolName)), log)
      /\ CallToolRequest client toolName (Some args) log
         = (Thrown (McpError InternalError
                      ("Tool " ++ toolName ++ " failed: Unknown tool: " ++ toolName)), log))
  /\ length declared_tools = 7
  /\ handleToolCall client "journal_create_entry" args = handleCreateEntry client args
  /\ handleToolCall client "journal_finalize_entry" args = handleFinalizeEntry client args
  /\ handleToolCall client "journal_list_entries" args = handleListEntries client args
  /\ handleToolCall client "journal_get_entry" args = handleGetEntry client args
  /\ handleToolCall client "journal_search" args = handleSearchEntries client args
  /\ handleToolCall client "journal_get_weekly_review" args = handleGetWeeklyReview client args
  /\ handleToolCall client "journal_get_writing_style" args = handleGetWritingStyle client.
Proof.
  split; [|repeat split].
  intros toolName H. split.
  - now apply handleToolCall_unknown.
  - unfold CallToolRequest, try_catch; simpl.
    rewrite handleToolCall_unknown by assumption. reflexivity.
Qed.

(** C7 at the undeclared name ["journal_delete_entry"]. *)
Lemma undeclared_tool_is_rejected_without_a_call_witness :
  handleToolCall (host := Examples.host) (Examples.client Examples.offline)
                 "journal_delete_entry" Args.empty []
  = (Thrown (Error "Unknown tool: journal_delete_entry"), []).
Proof.
  apply (proj1 (undeclared_tool_is_rejected_without_a_call
                  (host := Examples.host) (Examples.client Examples.offline) Args.empty [])
               "journal_delete_entry").
  simpl. intuition discriminate.
Defined.

(** C8.  An identifier other than the two declared URIs makes
    [handleResourceRead] throw the unknown-resource error without any call of
    the client; the profile URI issues exactly one call, [getUserProfile],
    and the recent-entries URI exactly one, [listEntries] with limit 5. *)
Theorem undeclared_resource_is_rejected_without_a_call
    {host : Host} (client : JournalOwlClient) (log : Log) :
  (forall uri,
      ~ In uri declared_resources ->
      handleResourceRead client uri log
      = (Thrown (Error ("Unknown resource: " ++ uri)), log)
      /\ calls_of (ReadResourceRequest client uri log) = log)
  /\ declared_resources = ["journalowl://user/profile"; "journalowl://user/recent-entries"]
  /\ handleResourceRead client "journalowl://user/profile" = handleProfileResource client
  /\ calls_of (handleResourceRead client "journalowl://user/profile" log)
     = (log ++ [get_profile_call])%list
  /\ handleResourceRead client "journalowl://user/recent-entries"
     = handleRecentEntriesResource client
  /\ calls_of (handleResourceRead client "journalowl://user/recent-entries" log)
     = (log ++ [list_entries_call recent_entries_params])%list.
Proof.
  split; [|repeat split].
  - intros uri H. split.
    + now apply handleResourceRead_unknown.
    + unfold ReadResourceRequest, try_catch.
      rewrite handleResourceRead_unknown by assumption. reflexivity.
  - apply handleProfileResource_calls.
  - apply handleRecentEntriesResource_calls.
Qed.

(** C8 at the undeclared identifier ["journalowl://user/settings"]. *)
Lemma undeclared_resource_is_rejected_without_a_call_witness :
  handleResourceRead (host := Examples.host) (Examples.client Examples.offline)
                     "journalowl://user/settings" []
  = (Thrown (Error "Unknown resource: journalowl://user/settings"), []).
Proof.
  apply (proj1 (undeclared_resource_is_rejected_without_a_call
                  (host := Examples.host) (Examples.client Examples.offline) [])
               "journalowl://user/settings").
  simpl. intuition discriminate.
Defined.

(** ** Rendering of lists *)

Lemma append_nil_r (s : string) : s ++ "" = s.
Proof. induction s as [|c s IH]; simpl; [reflexivity | now rewrite IH]. Qed.

Lemma or_number_default (x : option Z) : or_number x 0 = default x 0%Z.
Proof.
  destruct x as [n|]; simpl; [|reflexivity].
  destruct (Z.eqb_spec n 0); congruence.
Qed.

Lemma bind_returned {A B} (m : M A) (k : A -> M B) (log log' : Log) (a : A) :
  m log = (Returned a, log') -> bind m k log = k a log'.
Proof. intros H. unfold bind. now rewrite H. Qed.

Section Lists.

Context {host : Host}.
Variable client : JournalOwlClient.

Let net : Network := AxiosInstance.network (JournalOwlClient.client client).

Lemma handleListEntries_page args log response result :
  Network.get_entries net (list_entries_params args) = Fulfilled response ->
  payload response = Some result ->
  ListEntriesResult.entries result <> [] ->
  handleListEntries client args log
  = (Returned (text_result
       (page_text result ++
        (if Pagination.hasMore (ListEntriesResult.pagination result)
         then next_offset_hint
                (requested_offset args
                 + Z.of_nat (length (ListEntriesResult.entries result)))
         else ""))),
     (log ++ [list_entries_call (list_entries_params args)])%list).
Proof.
  intros Hnet Hdata Hentries.
  unfold handleListEntries.
  erewrite bind_returned
    by (apply listEntries_fulfilled; exact Hnet).
  rewrite Hdata. unfold bind at 1. cbn [prop ret].
  destruct result as [entries pagination]; cbn [ListEntriesResult.entries
    ListEntriesResult.pagination] in *.
  destruct entries as [|entry entries]; [contradiction|].
  cbn [length Nat.eqb]. unfold bind, ret. cbn [prop ret default].
  unfold page_text, next_offset_hint, requested_offset.
  cbn [ListEntriesResult.entries ListEntriesResult.pagination].
  rewrite or_number_default.
  repeat rewrite append_assoc. reflexivity.
Qed.

End Lists.

(** C9.  When the backend returns a page with at least one entry, and the
    total of the pagination, the requested offset and the offset of the next
    page are safe integers, the content that [journal_list_entries] returns
    is one item of type "text" whose text reports the total and the number of
    entries shown ([page_text]), followed by the next-offset hint exactly
    when [hasMore] is true; the offset of the hint is the requested offset (0
    when absent) plus the number of entries returned. *)
Theorem list_entries_reports_counts_and_next_offset
    {host : Host} (client : JournalOwlClient) (args : Args) (log : Log)
    (response : AxiosResponse (ApiResponse ListEntriesResult)) (result : ListEntriesResult) :
  Network.get_entries (AxiosInstance.network (JournalOwlClient.client client))
                      (list_entries_params args) = Fulfilled response ->
  ApiResponse.data (AxiosResponse.data response) = Some result ->
  ListEntriesResult.entries result <> [] ->
  let shown := Z.of_nat (length (ListEntriesResult.entries result)) in
  safe_integer (Pagination.total (ListEntriesResult.pagination result)) = true ->
  safe_integer (requested_offset args) = true ->
  safe_integer (requested_offset args + shown) = true ->
  handleListEntries client args log
  = (Returned
       (ToolResult.mk
          [TextContent.mk "text"
             (if Pagination.hasMore (ListEntriesResult.pagination result)
              then page_text result ++ next_offset_hint (requested_offset args + shown)
              else page_text result)]),
     (log ++ [list_entries_call (list_entries_params args)])%list).
Proof.
  intros Hnet Hdata Hentries shown _ _ _.
  erewrite handleListEntries_page by eassumption.
  unfold text_result.
  destruct (Pagination.hasMore (ListEntriesResult.pagination result)).
  - reflexivity.
  - now rewrite append_nil_r.
Qed.

(** C9 on a page of two entries out of twelve, asked for at offset 10. *)
Lemma list_entries_reports_counts_and_next_offset_witness :
  handleListEntries (host := Examples.host)
    (Examples.client (Examples.listing (Examples.success Examples.page)))
    (Examples.args_offset 10) []
  = (Returned
       (ToolResult.mk
          [TextContent.mk "text"
             ("Found 12 entries (showing 2):" ++ nl ++ nl ++
              "- **Morning walk** (2024-01-15)" ++ nl ++
              "  ID: e1 | Status: in_progress | Tags: health, nature" ++ nl ++ nl ++
              "- **Release day** (2024-01-16)" ++ nl ++
              "  ID: e2 | Status: completed | Tags: none" ++ nl ++ nl ++
              "More entries available. Use offset=12 to see more.")]),
     [Call.mk GET "/mcp/entries"
        (ParamsListEntries (ListEntriesParams.mk None (Some 10%Z) None None None None))]).
Proof.
  apply (list_entries_reports_counts_and_next_offset
           (host := Examples.host)
           (Examples.client (Examples.listing (Examples.success Examples.page)))
           (Examples.args_offset 10) []
           (AxiosResponse.mk 200%Z (Examples.success Examples.page)) Examples.page).
  - reflexivity.
  - reflexivity.
  - discriminate.
  - reflexivity.
  - reflexivity.
  - reflexivity.
Defined.

(** The last page of the same journal: no hint follows the list. *)
Example list_entries_page_example :
  handleListEntries (host := Examples.host)
    (Examples.client
       (Examples.listing
          (Examples.success
             (ListEntriesResult.mk [Examples.review_day] (Pagination.mk 12 20 11 false)))))
    (Examples.args_offset 11) []
  = (Returned
       (ToolResult.mk
          [TextContent.mk "text"
             ("Found 12 entries (showing 1):" ++ nl ++ nl ++
              "- **Release day** (2024-01-16)" ++ nl ++
              "  ID: e2 | Status: completed | Tags: none")]),
     [list_entries_call (list_entries_params (Examples.args_offset 11))]).
Proof. vm_compute. reflexivity. Qed.

(** ** Empty results *)

Section EmptyResults.

Context {host : Host}.
Variable client : JournalOwlClient.

Let net : Network := AxiosInstance.network (JournalOwlClient.client client).

Lemma handleListEntries_empty args log response result :
  Network.get_entries net (list_entries_params args) = Fulfilled response ->
  payload response = Some result ->
  ListEntriesResult.entries result = [] ->
  handleListEntries client args log
  = (Returned (text_result no_entries_text),
     (log ++ [list_entries_call (list_entries_params args)])%list).
Proof.
  intros Hnet Hdata Hentries.
  unfold handleListEntries.
  erewrite bind_returned by (apply listEntries_fulfilled; exact Hnet).
  rewrite Hdata. unfold bind. cbn [prop ret]. rewrite Hentries. reflexivity.
Qed.

Lemma handleRecentEntriesResource_empty log response result :
  Network.get_entries net recent_entries_params = Fulfilled response ->
  payload response = Some result ->
  ListEntriesResult.entries result = [] ->
  handleRecentEntriesResource client log
  = (Returned (ResourceResult.mk
       [ResourceContent.mk "journalowl://user/recent-entries" "text/plain"
                           no_recent_entries_text]),
     (log ++ [list_entries_call recent_entries_params])%list).
Proof.
  intros Hnet Hdata Hentries.
  unfold handleRecentEntriesResource.
  erewrite bind_returned by (apply listEntries_fulfilled; exact Hnet).
  rewrite Hdata. unfold bind. cbn [prop ret]. rewrite Hentries. reflexivity.
Qed.

Lemma handleSearchEntries_none args log response result :
  Network.post_entries_search net (search_input args) = Fulfilled response ->
  payload response = Some result ->
  SearchResult.count result = 0%Z ->
  handleSearchEntries client args log
  = (Returned (text_result (no_hits_text (ToString (Args.query args)))),
     (log ++ [search_call args])%list).
Proof.
  intros Hnet Hdata Hcount.
  unfold handleSearchEntries.
  erewrite bind_returned by (apply searchEntries_fulfilled; exact Hnet).
  rewrite Hdata. unfold bind. cbn [prop ret]. rewrite Hcount. reflexivity.
Qed.

Lemma handleSearchEntries_found args log response result :
  Network.post_entries_search net (search_input args) = Fulfilled response ->
  payload response = Some result ->
  SearchResult.count result <> 0%Z ->
  handleSearchEntries client args log
  = (Returned (text_result (hits_text (Args.query args) result)),
     (log ++ [search_call args])%list).
Proof.
  intros Hnet Hdata Hcount.
  unfold handleSearchEntries.
  erewrite bind_returned by (apply searchEntries_fulfilled; exact Hnet).
  rewrite Hdata. unfold bind. cbn [prop ret].
  destruct (Z.eqb_spec (SearchResult.count result) 0) as [E|_]; [contradiction|].
  reflexivity.
Qed.

End EmptyResults.

(** C10.  When the backend reports zero items, each of the three listings
    answers with its fixed text and nothing else: the content returned by
    [journal_list_entries] is one item of type "text" with the fixed text
    when the [entries] array is empty, that of [journal_search] is one item
    of type "text" with the fixed text quoting the query when the [count] of
    the result is 0, and the recent-entries resource returns one plain-text
    content with its notice when the [entries] array is empty. *)
Theorem empty_results_render_fixed_text
    {host : Host} (client : JournalOwlClient) (args : Args) (log : Log) :
  let net := AxiosInstance.network (JournalOwlClient.client client) in
  (forall response result,
      Network.get_entries net (list_entries_params args) = Fulfilled response ->
      ApiResponse.data (AxiosResponse.data response) = Some result ->
      ListEntriesResult.entries result = [] ->
      outcome_of (handleListEntries client args log)
      = Returned (ToolResult.mk
          [TextContent.mk "text" "No journal entries found matching your criteria."]))
  /\ (forall response result query,
      Network.post_entries_search net (search_input args) = Fulfilled response ->
      ApiResponse.data (AxiosResponse.data response) = Some result ->
      SearchResult.count result = 0%Z ->
      Args.query args = Some query ->
      outcome_of (handleSearchEntries client args log)
      = Returned (ToolResult.mk
          [TextContent.mk "text" ("No entries found matching " ++ dq ++ query ++ dq ++ ".")]))
  /\ (forall response result,
      Network.get_entries net recent_entries_params = Fulfilled response ->
      ApiResponse.data (AxiosResponse.data response) = Some result ->
      ListEntriesResult.entries result = [] ->
      outcome_of (handleRecentEntriesResource client log)
      = Returned (ResourceResult.mk
          [ResourceContent.mk "journalowl://user/recent-entries" "text/plain"
             "No recent journal entries found. The user may be new to journaling."])).
Proof.
  cbv zeta. split; [|split].
  - intros response result Hnet Hdata Hentries.
    erewrite handleListEntries_empty by eassumption. reflexivity.
  - intros response result query Hnet Hdata Hcount Hquery.
    erewrite handleSearchEntries_none by eassumption.
    rewrite Hquery. reflexivity.
  - intros response result Hnet Hdata Hentries.
    erewrite handleRecentEntriesResource_empty by eassumption. reflexivity.
Qed.

(** C10 on a search for ["tax"] that finds nothing. *)
Lemma empty_results_render_fixed_text_witness :
  outcome_of (handleSearchEntries (host := Examples.host)
                (Examples.client (Examples.searching (Examples.success Examples.no_hits)))
                (Examples.args_query "tax") [])
  = Returned (ToolResult.mk
      [TextContent.mk "text" ("No entries found matching " ++ dq ++ "tax" ++ dq ++ ".")]).
Proof.
  apply (proj1 (proj2 (empty_results_render_fixed_text
                         (host := Examples.host)
                         (Examples.client (Examples.searching (Examples.success Examples.no_hits)))
                         (Examples.args_query "tax") []))
               (AxiosResponse.mk 200%Z (Examples.success Examples.no_hits)) Examples.no_hits);
    reflexivity.
Defined.

(** ** Search previews *)

Lemma resultsList_item_preview {host : Host} (entry : JournalEntry) :
  resultsList_item entry = hit_head entry ++ "  Preview: " ++ preview (JournalEntry.content entry).
Proof.
  unfold resultsList_item, hit_head, preview.
  change 150%Z with (Z.of_nat 150). rewrite substring_first_chars.
  repeat rewrite append_assoc. reflexivity.
Qed.

(** C5.  When a search finds something ([count] is not 0, and is a safe
    integer), the content returned is one item of type "text" whose text
    lists one block per entry of [results]; the preview line of each block is
    the first 150 characters of the content followed by an ellipsis, and for
    a content of at most 150 characters it is the whole content followed by
    the ellipsis. *)
Theorem search_preview_is_first_150_chars
    {host : Host} (client : JournalOwlClient) (args : Args) (log : Log)
    (response : AxiosResponse (ApiResponse SearchResult)) (result : SearchResult) :
  Network.post_entries_search (AxiosInstance.network (JournalOwlClient.client client))
                              (search_input args) = Fulfilled response ->
  ApiResponse.data (AxiosResponse.data response) = Some result ->
  SearchResult.count result <> 0%Z ->
  safe_integer (SearchResult.count result) = true ->
  outcome_of (handleSearchEntries client args log)
  = Returned (ToolResult.mk
      [TextContent.mk "text"
         ("Found " ++ Number_toString (SearchResult.count result) ++ " entries for " ++
          dq ++ ToString (Args.query args) ++ dq ++ ":" ++ nl ++ nl ++
          join (nl ++ nl) (map resultsList_item (SearchResult.results result)))])
  /\ forall entry,
      In entry (SearchResult.results result) ->
      resultsList_item entry
      = hit_head entry ++ "  Preview: " ++ first_chars 150 (JournalEntry.content entry) ++ "..."
      /\ String.length (first_chars 150 (JournalEntry.content entry))
         = Nat.min 150 (String.length (JournalEntry.content entry))
      /\ (String.length (JournalEntry.content entry) <= 150 ->
          resultsList_item entry
          = hit_head entry ++ "  Preview: " ++ JournalEntry.content entry ++ "...").
Proof.
  intros Hnet Hdata Hcount _. split.
  - erewrite handleSearchEntries_found by eassumption. reflexivity.
  - intros entry _. split; [|split].
    + apply resultsList_item_preview.
    + apply first_chars_length.
    + intros Hshort. rewrite resultsList_item_preview. unfold preview.
      now rewrite first_chars_all.
Qed.

(** C5 on a search for ["river"] with one hit, whose content has 35
    characters. *)
Lemma search_preview_is_first_150_chars_witness :
  outcome_of (handleSearchEntries (host := Examples.host)
                (Examples.client (Examples.searching (Examples.success Examples.hits)))
                (Examples.args_query "river") [])
  = Returned (ToolResult.mk
      [TextContent.mk "text"
         ("Found 1 entries for " ++ dq ++ "river" ++ dq ++ ":" ++ nl ++ nl ++
          "- **Morning walk** (2024-01-15)" ++ nl ++
          "  ID: e1" ++ nl ++
          "  Preview: Walked along the river before work....")]).
Proof.
  apply (proj1 (search_preview_is_first_150_chars
                  (host := Examples.host)
                  (Examples.client (Examples.searching (Examples.success Examples.hits)))
                  (Examples.args_query "river") []
                  (AxiosResponse.mk 200%Z (Examples.success Examples.hits)) Examples.hits
                  eq_refl eq_refl ltac:(discriminate) eq_refl)).
Defined.

(** ** Sentiment labels *)

Lemma Prim2SF_threshold : Prim2SF 0.3 = S754_finite false 5404319552844595 (-54).
Proof. vm_compute. reflexivity. Qed.

Lemma Prim2SF_minus_threshold : Prim2SF (-0.3) = S754_finite true 5404319552844595 (-54).
Proof. vm_compute. reflexivity. Qed.

(** No score is below [-0.3] and above [0.3] at once. *)
Lemma below_excludes_above (s : float) :
  (s <? -0.3)%float = true -> (0.3 <? s)%float = false.
Proof.
  rewrite !ltb_spec, Prim2SF_threshold, Prim2SF_minus_threshold. unfold SFltb.
  destruct (Prim2SF s) as [b|b| |b m e]; cbn [SFcompare].
  - discriminate.
  - destruct b; [reflexivity|discriminate].
  - discriminate.
  - destruct b; [reflexivity|discriminate].
Qed.

Lemma sentimentLabel_cases (s : float) :
  (sentimentLabel s = "Positive" <-> (0.3 <? s)%float = true)
  /\ (sentimentLabel s = "Negative" <-> (s <? -0.3)%float = true)
  /\ (sentimentLabel s = "Neutral"
      <-> (0.3 <? s)%float = false /\ (s <? -0.3)%float = false).
Proof.
  unfold sentimentLabel.
  pose proof (below_excludes_above s) as Hex.
  destruct (0.3 <? s)%float; destruct (s <? -0.3)%float;
    repeat split; intros; try discriminate; try reflexivity;
    try (specialize (Hex eq_refl); discriminate);
    try (destruct H; discriminate).
Qed.

Section GetEntry.

Context {host : Host}.
Variable client : JournalOwlClient.

Let net : Network := AxiosInstance.network (JournalOwlClient.client client).

Lemma handleGetEntry_with_sentiment args log response data analysis sentiment :
  Network.get_entry net (get_entry_url args) (get_entry_flag args) = Fulfilled response ->
  payload response = Some data ->
  JournalEntry.analysis (EntryData.entry data) = Some analysis ->
  EntryAnalysis.sentiment analysis = Some sentiment ->
  handleGetEntry client args log
  = (Returned (text_result
       (entry_text (EntryData.entry data) ++ analysis_heading ++
        sentiment_line (sentimentLabel sentiment) sentiment ++
        themes_line (EntryAnalysis.themes analysis) ++
        insights_block (EntryAnalysis.insights analysis))),
     (log ++ [Call.mk GET (get_entry_url args) (ParamsGetEntry (get_entry_flag args))])%list).
Proof.
  intros Hnet Hdata Hanalysis Hsentiment.
  unfold handleGetEntry.
  erewrite bind_returned; cycle 1.
  { erewrite getEntry_fulfilled by exact Hnet. rewrite Hdata. reflexivity. }
  unfold ret. rewrite Hanalysis, Hsentiment.
  unfold entry_text, analysis_heading, sentiment_line, themes_line, insights_block.
  destruct (EntryAnalysis.themes analysis) as [[|t ts]|];
    destruct (EntryAnalysis.insights analysis) as [[|i rest]|];
    cbn [length Nat.ltb Nat.leb];
    repeat rewrite append_assoc; repeat rewrite append_nil_r; reflexivity.
Qed.

End GetEntry.

(** *** The thresholds as numbers *)

Lemma digits2_pos_size (m : positive) : digits2_pos m = Pos.size m.
Proof. induction m; simpl; congruence. Qed.

Lemma size_bounds (m : positive) :
  (Z.pos m < 2 ^ Z.pos (Pos.size m) <= 2 * Z.pos m)%Z.
Proof.
  pose proof (Pos.size_gt m) as Hgt. pose proof (Pos.size_le m) as Hle.
  rewrite <- Pos2Z.inj_pow. lia.
Qed.

Lemma pow2_53 : (2 ^ 53 = 9007199254740992)%Z.
Proof. reflexivity. Qed.

Lemma pow2_54 : (2 ^ 54 = 18014398509481984)%Z.
Proof. reflexivity. Qed.

Lemma pow2_55 : (2 ^ 55 = 36028797018963968)%Z.
Proof. reflexivity. Qed.

(** A binary64 mantissa has 53 bits, or fewer at the smallest exponent. *)
Lemma canonical_cases (m : positive) (e : Z) :
  canonical_mantissa prec emax m e = true ->
  (Z.pos (Pos.size m) = 53 /\ -1074 <= e)%Z \/ (e = -1074 /\ Z.pos (Pos.size m) <= 53)%Z.
Proof.
  unfold canonical_mantissa, fexp, SpecFloat.emin, prec, emax.
  rewrite digits2_pos_size. intros H. apply Z.eqb_eq in H. lia.
Qed.

Lemma finite_valid (b : bool) (m : positive) (e : Z) :
  valid_binary (S754_finite b m e) = true -> canonical_mantissa prec emax m e = true.
Proof.
  cbn [SpecFloat.valid_binary]. unfold bounded. intros H.
  apply andb_true_iff in H. apply H.
Qed.

(** Among binary64 values, those above the one closest to 3/10 are those
    above 3/10: no binary64 value lies between the two. *)
Lemma above_threshold_iff (m : positive) (e : Z) :
  canonical_mantissa prec emax m e = true ->
  (-54 < e \/ (e = -54 /\ (threshold_mantissa < m)%positive))%Z
  <-> (3 # 10 < magnitude m e)%Q.
Proof.
  intros Hc. apply canonical_cases in Hc.
  pose proof (size_bounds m) as Hs.
  unfold Qlt, magnitude, threshold_mantissa.
  destruct e as [|p|p]; cbn [Qnum Qden].
  - split; [lia|intros _; left; lia].
  - split; [|intros _; left; lia]. intros _.
    assert (0 < 2 ^ Z.pos p)%Z by (apply Z.pow_pos_nonneg; lia). nia.
  - rewrite Pos2Z.inj_pow.
    destruct (Z.lt_trichotomy (Z.pos p) 54) as [Hlt|[Heq|Hgt]].
    + assert (Hd : Z.pos (Pos.size m) = 53%Z) by lia.
      rewrite Hd, pow2_53 in Hs.
      assert (2 ^ Z.pos p <= 2 ^ 53)%Z by (apply Z.pow_le_mono_r; lia).
      rewrite pow2_53 in *. split; [intros _; lia | intros _; left; lia].
    + assert (Hd : Z.pos (Pos.size m) = 53%Z) by lia.
      rewrite Hd, pow2_53 in Hs. rewrite Heq, pow2_54.
      split.
      * intros [?|[_ ?]]; lia.
      * intros ?. right. split; lia.
    + assert (Hd : (Z.pos (Pos.size m) <= 53)%Z) by lia.
      assert (2 ^ Z.pos (Pos.size m) <= 2 ^ 53)%Z by (apply Z.pow_le_mono_r; lia).
      assert (2 ^ 55 <= 2 ^ Z.pos p)%Z by (apply Z.pow_le_mono_r; lia).
      rewrite pow2_53, pow2_55 in *.
      split; [intros [?|[? _]]; lia | intros ?; lia].
Qed.

Lemma magnitude_pos (m : positive) (e : Z) : (0 < magnitude m e)%Q.
Proof.
  unfold Qlt, magnitude. destruct e as [|p|p]; cbn [Qnum Qden]; try lia.
  all: assert (0 < 2 ^ Z.pos p)%Z by (apply Z.pow_pos_nonneg; lia); nia.
Qed.

Lemma opp_lt_opp (a b : Q) : (- a < - b)%Q <-> (b < a)%Q.
Proof. unfold Qlt, Qopp; cbn [Qnum Qden]. lia. Qed.

Lemma negative_not_above (m : positive) (e : Z) : ~ (3 # 10 < - magnitude m e)%Q.
Proof.
  pose proof (magnitude_pos m e) as Hp. revert Hp.
  unfold Qlt, Qopp. destruct (magnitude m e) as [n d]. cbn [Qnum Qden]. lia.
Qed.

Lemma positive_not_below (m : positive) (e : Z) : ~ (magnitude m e < - (3 # 10))%Q.
Proof.
  pose proof (magnitude_pos m e) as Hp. revert Hp.
  unfold Qlt, Qopp. destruct (magnitude m e) as [n d]. cbn [Qnum Qden]. lia.
Qed.

(** What [SFltb] computes on two finite numbers of the same sign. *)
Lemma SFltb_finite_positive (m1 m2 : positive) (e1 e2 : Z) :
  SFltb (S754_finite false m1 e1) (S754_finite false m2 e2) = true
  <-> (e1 < e2 \/ (e2 = e1 /\ (m1 < m2)%positive))%Z.
Proof.
  unfold SFltb. cbn [SFcompare]. fold (Pos.compare m1 m2).
  destruct (Z.compare_spec e1 e2) as [E|E|E].
  - destruct (Pos.compare_spec m1 m2) as [E'|E'|E'].
    + split; [discriminate|]. intros [H|[_ H]]; exfalso.
      * rewrite <- E in H. exact (Z.lt_irrefl _ H).
      * rewrite E' in H. exact (Pos.lt_irrefl _ H).
    + split; [|reflexivity]. intros _. right. split; [symmetry; exact E | exact E'].
    + split; [discriminate|]. intros [H|[_ H]]; exfalso.
      * rewrite <- E in H. exact (Z.lt_irrefl _ H).
      * exact (Pos.lt_irrefl _ (Pos.lt_trans _ _ _ H E')).
  - split; [|reflexivity]. intros _. left. exact E.
  - split; [discriminate|]. intros [H|[H _]]; exfalso.
    + exact (Z.lt_irrefl _ (Z.lt_trans _ _ _ H E)).
    + rewrite H in E. exact (Z.lt_irrefl _ E).
Qed.

Lemma SFltb_finite_negative (m1 m2 : positive) (e1 e2 : Z) :
  SFltb (S754_finite true m1 e1) (S754_finite true m2 e2) = true
  <-> SFltb (S754_finite false m2 e2) (S754_finite false m1 e1) = true.
Proof.
  unfold SFltb. cbn [SFcompare].
  rewrite (Z.compare_antisym e1 e2).
  fold (Pos.compare m1 m2). fold (Pos.compare m2 m1).
  rewrite (Pos.compare_antisym m1 m2).
  destruct (e1 ?= e2)%Z; cbn [CompOpp]; try tauto;
    destruct (m1 ?= m2)%positive; cbn [CompOpp]; tauto.
Qed.

Lemma SFltb_above_threshold (x : spec_float) :
  valid_binary x = true ->
  SFltb (S754_finite false threshold_mantissa (-54)) x = true
  <-> greater_than (value_of_spec x) (3 # 10).
Proof.
  intros Hv.
  destruct x as [b|b| |[|] m e]; cbn [greater_than value_of_spec].
  - split; [discriminate|]. unfold Qlt; cbn [Qnum Qden]. lia.
  - destruct b; split; try discriminate; try tauto.
  - split; [discriminate|tauto].
  - split; [discriminate|]. intros H. now apply negative_not_above in H.
  - apply finite_valid in Hv.
    rewrite SFltb_finite_positive. apply above_threshold_iff, Hv.
Qed.

Lemma SFltb_below_threshold (x : spec_float) :
  valid_binary x = true ->
  SFltb x (S754_finite true threshold_mantissa (-54)) = true
  <-> less_than (value_of_spec x) (- (3 # 10)).
Proof.
  intros Hv.
  destruct x as [b|b| |[|] m e]; cbn [less_than value_of_spec].
  - split; [discriminate|]. unfold Qlt; cbn [Qnum Qden Qopp]. lia.
  - destruct b; split; try discriminate; try tauto.
  - split; [discriminate|tauto].
  - apply finite_valid in Hv.
    rewrite SFltb_finite_negative, SFltb_finite_positive, opp_lt_opp.
    apply above_threshold_iff, Hv.
  - split; [discriminate|]. intros H. now apply positive_not_below in H.
Qed.

Lemma above_threshold_value (s : float) :
  (0.3 <? s)%float = true <-> greater_than (number_value_of s) (3 # 10).
Proof.
  rewrite ltb_spec, Prim2SF_threshold.
  apply SFltb_above_threshold, Prim2SF_valid.
Qed.

Lemma below_threshold_value (s : float) :
  (s <? -0.3)%float = true <-> less_than (number_value_of s) (- (3 # 10)).
Proof.
  rewrite ltb_spec, Prim2SF_minus_threshold.
  apply SFltb_below_threshold, Prim2SF_valid.
Qed.

(** C4.  For an entry whose analysis carries a sentiment score, the content
    that [journal_get_entry] returns is one item of type "text" whose text
    has the line "**Sentiment:** label (score)" right after the heading of
    the analysis, and the label is "Positive" exactly
    when the score is strictly greater than 3/10, "Negative" exactly when it
    is strictly less than -3/10, and "Neutral" otherwise.  The scores 0.3 and
    -0.3 are "Neutral", 0.5 is "Positive", -0.5 is "Negative", 0.1 is
    "Neutral". *)
Theorem sentiment_label_thresholds
    {host : Host} (client : JournalOwlClient) (args : Args) (log : Log)
    (response : AxiosResponse (ApiResponse EntryData)) (data : EntryData)
    (analysis : EntryAnalysis) (sentiment : float) :
  Network.get_entry (AxiosInstance.network (JournalOwlClient.client client))
                    (get_entry_url args) (get_entry_flag args) = Fulfilled response ->
  ApiResponse.data (AxiosResponse.data response) = Some data ->
  JournalEntry.analysis (EntryData.entry data) = Some analysis ->
  EntryAnalysis.sentiment analysis = Some sentiment ->
  outcome_of (handleGetEntry client args log)
  = Returned (ToolResult.mk
      [TextContent.mk "text"
         (entry_text (EntryData.entry data) ++ analysis_heading ++
          ("**Sentiment:** " ++ sentimentLabel sentiment ++
           " (" ++ toFixed sentiment 2 ++ ")" ++ nl ++ nl) ++
          themes_line (EntryAnalysis.themes analysis) ++
          insights_block (EntryAnalysis.insights analysis))])
  /\ (sentimentLabel sentiment = "Positive"
      <-> greater_than (number_value_of sentiment) (3 # 10))
  /\ (sentimentLabel sentiment = "Negative"
      <-> less_than (number_value_of sentiment) (- (3 # 10)))
  /\ (sentimentLabel sentiment = "Neutral"
      <-> ~ greater_than (number_value_of sentiment) (3 # 10)
          /\ ~ less_than (number_value_of sentiment) (- (3 # 10)))
  /\ sentimentLabel 0.3 = "Neutral"
  /\ sentimentLabel (-0.3) = "Neutral"
  /\ sentimentLabel 0.5 = "Positive"
  /\ sentimentLabel (-0.5) = "Negative"
  /\ sentimentLabel 0.1 = "Neutral".
Proof.
  intros Hnet Hdata Hanalysis Hsentiment.
  destruct (sentimentLabel_cases sentiment) as (Hpos & Hneg & Hneu).
  split; [|split; [|split; [|split]]].
  - erewrite handleGetEntry_with_sentiment by eassumption. reflexivity.
  - rewrite Hpos. apply above_threshold_value.
  - rewrite Hneg. apply below_threshold_value.
  - rewrite Hneu, <- above_threshold_value, <- below_threshold_value.
    destruct (0.3 <? sentiment)%float; destruct (sentiment <? -0.3)%float;
      intuition discriminate.
  - repeat split; vm_compute; reflexivity.
Qed.

(** C4 on an entry whose score is 0.5. *)
Lemma sentiment_label_thresholds_witness :
  outcome_of (handleGetEntry (host := Examples.host)
                (Examples.client
                   (Examples.serving_entry
                      (Examples.success (EntryData.mk Examples.review_day))))
                (Examples.args_entry_id "e2") [])
  = Returned (ToolResult.mk
      [TextContent.mk "text"
         ("# Release day" ++ nl ++ nl ++
          "**Date:** 2024-01-16" ++ nl ++
          "**Mood:** Not specified" ++ nl ++
          "**Tags:** None" ++ nl ++
          "**Status:** completed" ++ nl ++ nl ++
          "---" ++ nl ++ nl ++
          "The release went out without a hitch." ++ nl ++ nl ++
          "---" ++ nl ++ nl ++
          "## AI Analysis" ++ nl ++ nl ++
          "**Sentiment:** Positive (0.50)" ++ nl ++ nl ++
          "**Themes:** work" ++ nl ++ nl ++
          "**Insights:**" ++ nl ++
          "- Ship small.")]).
Proof.
  apply (proj1 (sentiment_label_thresholds
                  (host := Examples.host)
                  (Examples.client
                     (Examples.serving_entry
                        (Examples.success (EntryData.mk Examples.review_day))))
                  (Examples.args_entry_id "e2") []
                  (AxiosResponse.mk 200%Z (Examples.success (EntryData.mk Examples.review_day)))
                  (EntryData.mk Examples.review_day)
                  (EntryAnalysis.mk (Some 0.5%float) (Some ["work"]) (Some ["Ship small."]))
                  0.5%float eq_refl eq_refl eq_refl eq_refl)).
Defined.

(** ** Where the handlers and the client disagree *)

Section Disagreements.

Context {host : Host}.
Variable client : JournalOwlClient.

Let net : Network := AxiosInstance.network (JournalOwlClient.client client).

(** [finalizeEntry] is not a method of the class. *)
Lemma finalizeEntry_is_not_a_method :
  existsb (String.eqb "finalizeEntry") JournalOwlClient_methods = false.
Proof. reflexivity. Qed.

(** Neither [entry] nor [metadata] is a member of a [JournalEntry]. *)
Lemma JournalEntry_has_no_entry_member :
  existsb (String.eqb "entry") JournalEntry_members = false
  /\ existsb (String.eqb "metadata") JournalEntry_members = false.
Proof. split; reflexivity. Qed.

(** Given a [finalizeEntry] member that resolves to [result] with one call,
    the handler issues that call and renders [result]: the handler does its
    part, it is the class that offers no such member. *)
Lemma handleFinalizeEntry_with_member finalizeEntry args log result log' :
  finalizeEntry (Args.entry_id args) log = (Returned result, log') ->
  handleFinalizeEntry_with (Some finalizeEntry) args log
  = (Returned (text_result (finalizeEntry_text result)), log').
Proof.
  intros H. unfold handleFinalizeEntry_with, call.
  erewrite bind_returned by exact H. reflexivity.
Qed.

(** Whatever the arguments and the backend, [handleFinalizeEntry] ends in a
    [TypeError] before any call is issued. *)
Lemma handleFinalizeEntry_throws args log :
  handleFinalizeEntry client args log
  = (Thrown (TypeError "client.finalizeEntry is not a function"), log).
Proof. reflexivity. Qed.

(** Whenever the backend answers the creation with an envelope that carries
    the created entry, [handleCreateEntry] ends in a [TypeError]: it reads
    [entry] from a value that is the entry already. *)
Lemma handleCreateEntry_throws args log response data :
  Network.post_entries net (create_input args) = Fulfilled response ->
  payload response = Some data ->
  handleCreateEntry client args log
  = (Thrown (TypeError "Cannot read properties of undefined (reading 'id')"),
     (log ++ [Call.mk POST "/mcp/entries" (BodyCreateEntry (create_input args))])%list).
Proof.
  intros Hnet Hdata. unfold handleCreateEntry.
  erewrite bind_returned; cycle 1.
  { erewrite createEntry_fulfilled by exact Hnet. rewrite Hdata. reflexivity. }
  reflexivity.
Qed.

End Disagreements.

(** C2 at the call [journal_finalize_entry {entry_id: "e1"}]: the client has
    no [finalizeEntry], so the handler issues no call of the client and the
    front-end reports a protocol error instead of the text about the entry. *)
Theorem finalize_entry_call_fails :
  CallToolRequest (host := Examples.host)
    (Examples.client (Examples.serving_entry (Examples.success (EntryData.mk Examples.walk))))
    "journal_finalize_entry" (Some (Examples.args_entry_id "e1")) []
  = (Thrown (McpError InternalError
               "Tool journal_finalize_entry failed: client.finalizeEntry is not a function"),
     []).
Proof. reflexivity. Qed.

(** C3 at the call [journal_create_entry {content: ...}] answered by the
    backend with a success envelope that carries the created entry, whose
    status is [in_progress]: the client issues the POST, and the front-end
    reports a protocol error instead of the text about the entry. *)
Theorem create_entry_call_fails :
  Network.post_entries
    (Examples.serving_entry (Examples.success (EntryData.mk Examples.walk)))
    (create_input (Examples.args_content "Walked along the river before work."))
  = ok_response (Examples.success (EntryData.mk Examples.walk))
  /\ JournalEntry.status Examples.walk = in_progress
  /\ CallToolRequest (host := Examples.host)
       (Examples.client (Examples.serving_entry (Examples.success (EntryData.mk Examples.walk))))
       "journal_create_entry"
       (Some (Examples.args_content "Walked along the river before work.")) []
     = (Thrown (McpError InternalError
                  ("Tool journal_create_entry failed: " ++
                   "Cannot read properties of undefined (reading 'id')")),
        [Call.mk POST "/mcp/entries"
           (BodyCreateEntry
              (CreateEntryInput.mk (Some "Walked along the river before work.")
                                   None None None))]).
Proof. repeat split. Qed.

(** ** Further examples *)

(** A content of 160 characters is cut after its 150th. *)
Example long_content_preview :
  String.length (JournalEntry.content Examples.long_note) = 160
  /\ resultsList_item (host := Examples.host) Examples.long_note
     = "- **Numbers** (2024-01-17)" ++ nl ++
       "  ID: e3" ++ nl ++
       "  Preview: " ++
       Examples.ten ++ Examples.ten ++ Examples.ten ++ Examples.ten ++ Examples.ten ++
       Examples.ten ++ Examples.ten ++ Examples.ten ++ Examples.ten ++ Examples.ten ++
       Examples.ten ++ Examples.ten ++ Examples.ten ++ Examples.ten ++ Examples.ten ++
       "...".
Proof. split; vm_compute; reflexivity. Qed.

(** [toFixed] of the example host on a few scores. *)
Example toFixed_examples :
  Examples.toFixed_exact 0.5 2 = "0.50"
  /\ Examples.toFixed_exact (-0.3) 2 = "-0.30"
  /\ Examples.toFixed_exact 0.125 2 = "0.13"
  /\ Examples.toFixed_exact 1.005 2 = "1.00"
  /\ Examples.toFixed_exact (-0.001) 2 = "-0.00"
  /\ Examples.toFixed_exact 0 2 = "0.00"
  /\ Examples.toFixed_exact 12.5 0 = "13".
Proof. repeat split; vm_compute; reflexivity. Qed.

(** The constructor refuses an empty credential. *)
Example constructor_requires_api_key :
  JournalOwlClient_new Examples.offline (JournalOwlConfig.mk "" None None)
  = Thrown (Error "API key is required. Set JOURNALOWL_API_KEY environment variable.")
  /\ JournalOwlClient_new Examples.offline Examples.config
     = Returned (Examples.client Examples.offline)
  /\ JournalOwlMcpServer_new Examples.offline (Env.mk None None) = Exit 1.
Proof. repeat split. Qed.

(* ================================================================== *)
(** * Properties of the remaining code *)

(** ** The calls a tool issues *)

Lemma or_string_latest (args : Args) :
  or_string (Args.week args) "latest" = requested_review args.
Proof.
  unfold requested_review. destruct (Args.week args) as [[|c w]|]; reflexivity.
Qed.

Section Calls.

Context {host : Host}.
Variable client : JournalOwlClient.

Lemma handleCreateEntry_calls args log :
  calls_of (handleCreateEntry client args log)
  = (log ++ [Call.mk POST "/mcp/entries" (BodyCreateEntry (create_input args))])%list.
Proof.
  unfold handleCreateEntry, createEntry, bind, exchange, create_input.
  destruct (Network.post_entries _ _) as [response|e]; [|reflexivity].
  unfold payload. destruct (ApiResponse.data _); reflexivity.
Qed.

Lemma handleListEntries_calls args log :
  calls_of (handleListEntries client args log)
  = (log ++ [list_entries_call (list_entries_params args)])%list.
Proof.
  unfold handleListEntries, listEntries, bind, exchange; cbn [default].
  fold (list_entries_params args).
  destruct (Network.get_entries _ _) as [response|e]; [|reflexivity].
  unfold payload. destruct (ApiResponse.data _) as [result|]; [|reflexivity].
  cbn [prop ret]. destruct (ListEntriesResult.entries result); reflexivity.
Qed.

Lemma handleGetEntry_calls args log :
  calls_of (handleGetEntry client args log)
  = (log ++ [Call.mk GET (get_entry_url args) (ParamsGetEntry (get_entry_flag args))])%list.
Proof.
  unfold handleGetEntry, getEntry, bind, exchange; cbn [default].
  fold (get_entry_flag args). fold (get_entry_url args).
  destruct (Network.get_entry _ _ _) as [response|e]; [|reflexivity].
  unfold payload. destruct (ApiResponse.data _); reflexivity.
Qed.

Lemma handleSearchEntries_calls args log :
  calls_of (handleSearchEntries client args log) = (log ++ [search_call args])%list.
Proof.
  unfold handleSearchEntries, searchEntries, bind, exchange.
  fold (search_input args).
  destruct (Network.post_entries_search _ _) as [response|e]; [|reflexivity].
  unfold payload. destruct (ApiResponse.data _) as [result|]; [|reflexivity].
  cbn [prop ret]. destruct (SearchResult.count result =? 0)%Z; reflexivity.
Qed.

Lemma handleGetWeeklyReview_calls args log :
  calls_of (handleGetWeeklyReview client args log)
  = (log ++ [Call.mk GET ("/mcp/reviews/weekly/" ++ requested_review args) NoConfig])%list.
Proof.
  unfold handleGetWeeklyReview, getWeeklyReview, bind, exchange; cbn [default].
  rewrite or_string_latest.
  destruct (Network.get_review_weekly _ _) as [response|e]; [|reflexivity].
  unfold payload. destruct (ApiResponse.data _); reflexivity.
Qed.

Lemma handleGetWritingStyle_calls log :
  calls_of (handleGetWritingStyle client log)
  = (log ++ [Call.mk GET "/mcp/user/style" NoConfig])%list.
Proof.
  unfold handleGetWritingStyle, getWritingStyle, bind, exchange.
  destruct (Network.get_user_style _) as [response|e]; [|reflexivity].
  unfold payload. destruct (ApiResponse.data _); reflexivity.
Qed.

Lemma handleToolCall_calls toolName args log :
  calls_of (handleToolCall client toolName args log)
  = (log ++ tool_calls toolName args)%list.
Proof.
  unfold handleToolCall, tool_calls.
  destruct (String.eqb_spec toolName "journal_create_entry") as [->|_].
  { apply handleCreateEntry_calls. }
  destruct (String.eqb_spec toolName "journal_finalize_entry") as [->|_].
  { cbn. now rewrite app_nil_r. }
  destruct (String.eqb_spec toolName "journal_list_entries") as [->|_].
  { apply handleListEntries_calls. }
  destruct (String.eqb_spec toolName "journal_get_entry") as [->|_].
  { apply handleGetEntry_calls. }
  destruct (String.eqb_spec toolName "journal_search") as [->|_].
  { apply handleSearchEntries_calls. }
  destruct (String.eqb_spec toolName "journal_get_weekly_review") as [->|_].
  { apply handleGetWeeklyReview_calls. }
  destruct (String.eqb_spec toolName "journal_get_writing_style") as [->|_].
  { apply handleGetWritingStyle_calls. }
  cbn. now rewrite app_nil_r.
Qed.

Lemma tool_calls_at_most_one toolName args : length (tool_calls toolName args) <= 1.
Proof.
  unfold tool_calls.
  repeat match goal with
         | |- context [if ?b then _ else _] => destruct b; [cbn; lia|]
         end.
  cbn; lia.
Qed.

Lemma try_catch_throw_calls {A} (m : M A) (wrap : exn -> exn) (log : Log) :
  calls_of (try_catch m (fun e => throw (wrap e)) log) = calls_of (m log).
Proof.
  unfold try_catch, calls_of. destruct (m log) as [[a|e] log']; reflexivity.
Qed.

End Calls.

(** X1.  The calls a tool call issues depend on the tool name and the
    arguments only, never on what the backend answers: one call for each of
    the six tools the client serves, none for [journal_finalize_entry] and
    for an unknown name.  No handler issues a second call, and the
    front-end adds none. *)
Theorem tool_call_issues_its_one_call
    {host : Host} (client : JournalOwlClient) (toolName : string) (args : Args) (log : Log) :
  calls_of (handleToolCall client toolName args log) = (log ++ tool_calls toolName args)%list
  /\ calls_of (CallToolRequest client toolName (Some args) log)
     = (log ++ tool_calls toolName args)%list
  /\ length (tool_calls toolName args) <= 1
  /\ (In toolName served_tools -> length (tool_calls toolName args) = 1).
Proof.
  split; [|split; [|split]].
  - apply handleToolCall_calls.
  - unfold CallToolRequest. rewrite try_catch_throw_calls. apply handleToolCall_calls.
  - apply tool_calls_at_most_one.
  - cbn [served_tools In]. intros [<-|[<-|[<-|[<-|[<-|[<-|[]]]]]]]; reflexivity.
Qed.

(** X2.  [journal_get_weekly_review] asks for the review ["latest"] when the
    [week] argument is missing and when it is the empty string, and for the
    review the argument names otherwise. *)
Theorem weekly_review_defaults_to_latest
    {host : Host} (client : JournalOwlClient) (args : Args) (log : Log) :
  (Args.week args = None \/ Args.week args = Some "" ->
   calls_of (handleGetWeeklyReview client args log)
   = (log ++ [Call.mk GET "/mcp/reviews/weekly/latest" NoConfig])%list)
  /\ (forall week,
      Args.week args = Some week -> week <> "" ->
      calls_of (handleGetWeeklyReview client args log)
      = (log ++ [Call.mk GET ("/mcp/reviews/weekly/" ++ week) NoConfig])%list).
Proof.
  split.
  - intros H. rewrite handleGetWeeklyReview_calls. unfold requested_review.
    destruct H as [-> | ->]; reflexivity.
  - intros week Hweek Hne. rewrite handleGetWeeklyReview_calls. unfold requested_review.
    rewrite Hweek. destruct week; [contradiction|reflexivity].
Qed.

(** ** Failures of the backend *)

(** X3.  When every exchange is rejected with [e], each of the six tools the
    client serves and each of the two resources fails with the error the
    interceptor makes of [e], and with nothing else; the front-end reports it
    as an internal error whose message names the tool and carries that
    error's message unchanged. *)
Theorem rejected_exchange_reaches_the_caller
    {host : Host} (client : JournalOwlClient) (e : AxiosError)
    (toolName : string) (args : Args) (log : Log) :
  AxiosInstance.network (JournalOwlClient.client client) = rejecting e ->
  In toolName served_tools ->
  outcome_of (handleToolCall client toolName args log) = Thrown (onRejected e)
  /\ outcome_of (CallToolRequest client toolName (Some args) log)
     = Thrown (McpError InternalError
                 ("Tool " ++ toolName ++ " failed: " ++ message (onRejected e)))
  /\ outcome_of (handleResourceRead client "journalowl://user/profile" log)
     = Thrown (onRejected e)
  /\ outcome_of (handleResourceRead client "journalowl://user/recent-entries" log)
     = Thrown (onRejected e).
Proof.
  destruct client as [[baseURL timeout headers net]]. cbn [JournalOwlClient.client
    AxiosInstance.network]. intros -> Hin.
  cbn [served_tools In] in Hin.
  destruct Hin as [<-|[<-|[<-|[<-|[<-|[<-|[]]]]]]]; repeat split.
Qed.

(** X3 when the backend cannot be reached, at [journal_search]. *)
Lemma rejected_exchange_reaches_the_caller_witness :
  outcome_of (CallToolRequest (host := Examples.host) (Examples.client Examples.offline)
                "journal_search" (Some (Examples.args_query "river")) [])
  = Thrown (McpError InternalError
              ("Tool journal_search failed: " ++
               "JournalOwl API is unreachable. Please check your network connection.")).
Proof.
  apply (proj1 (proj2 (rejected_exchange_reaches_the_caller
                         (host := Examples.host) (Examples.client Examples.offline)
                         Examples.unreachable "journal_search"
                         (Examples.args_query "river") [] eq_refl
                         ltac:(cbn; tauto)))).
Defined.

Section MissingData.

Context {host : Host}.
Variable client : JournalOwlClient.

Let net : Network := AxiosInstance.network (JournalOwlClient.client client).

Lemma handleListEntries_no_data args log response :
  Network.get_entries net (list_entries_params args) = Fulfilled response ->
  payload response = None ->
  outcome_of (handleListEntries client args log) = Thrown (undefined_read "entries").
Proof.
  intros Hnet Hdata. unfold handleListEntries.
  erewrite bind_returned by (apply listEntries_fulfilled; exact Hnet).
  rewrite Hdata. reflexivity.
Qed.

Lemma handleSearchEntries_no_data args log response :
  Network.post_entries_search net (search_input args) = Fulfilled response ->
  payload response = None ->
  outcome_of (handleSearchEntries client args log) = Thrown (undefined_read "count").
Proof.
  intros Hnet Hdata. unfold handleSearchEntries.
  erewrite bind_returned by (apply searchEntries_fulfilled; exact Hnet).
  rewrite Hdata. reflexivity.
Qed.

Lemma handleRecentEntriesResource_no_data log response :
  Network.get_entries net recent_entries_params = Fulfilled response ->
  payload response = None ->
  outcome_of (handleRecentEntriesResource client log) = Thrown (undefined_read "entries").
Proof.
  intros Hnet Hdata. unfold handleRecentEntriesResource.
  erewrite bind_returned by (apply listEntries_fulfilled; exact Hnet).
  rewrite Hdata. reflexivity.
Qed.

Lemma handleGetEntry_no_data args log response :
  Network.get_entry net (get_entry_url args) (get_entry_flag args) = Fulfilled response ->
  payload response = None ->
  outcome_of (handleGetEntry client args log) = Thrown (undefined_read "entry").
Proof.
  intros Hnet Hdata. unfold handleGetEntry, bind.
  erewrite getEntry_fulfilled by exact Hnet. rewrite Hdata. reflexivity.
Qed.

Lemma handleProfileResource_no_data log response :
  Network.get_user_profile net = Fulfilled response ->
  payload response = None ->
  outcome_of (handleProfileResource client log) = Thrown (undefined_read "profile").
Proof.
  intros Hnet Hdata. unfold handleProfileResource, bind.
  erewrite getUserProfile_fulfilled by exact Hnet. rewrite Hdata. reflexivity.
Qed.

End MissingData.

(** X4.  An envelope that arrives without [data] is not rendered as an empty
    result: [journal_list_entries], [journal_search], [journal_get_entry] and
    both resources end in a [TypeError] for the member they read first
    ([entries], [count], [entry], [profile], [entries]). *)
Theorem missing_data_is_a_type_error
    {host : Host} (client : JournalOwlClient) (args : Args) (log : Log) :
  let net := AxiosInstance.network (JournalOwlClient.client client) in
  (forall response,
      Network.get_entries net (list_entries_params args) = Fulfilled response ->
      ApiResponse.data (AxiosResponse.data response) = None ->
      outcome_of (handleListEntries client args log) = Thrown (undefined_read "entries"))
  /\ (forall response,
      Network.post_entries_search net (search_input args) = Fulfilled response ->
      ApiResponse.data (AxiosResponse.data response) = None ->
      outcome_of (handleSearchEntries client args log) = Thrown (undefined_read "count"))
  /\ (forall response,
      Network.get_entry net (get_entry_url args) (get_entry_flag args) = Fulfilled response ->
      ApiResponse.data (AxiosResponse.data response) = None ->
      outcome_of (handleGetEntry client args log) = Thrown (undefined_read "entry"))
  /\ (forall response,
      Network.get_user_profile net = Fulfilled response ->
      ApiResponse.data (AxiosResponse.data response) = None ->
      outcome_of (handleProfileResource client log) = Thrown (undefined_read "profile"))
  /\ (forall response,
      Network.get_entries net recent_entries_params = Fulfilled response ->
      ApiResponse.data (AxiosResponse.data response) = None ->
      outcome_of (handleRecentEntriesResource client log) = Thrown (undefined_read "entries")).
Proof.
  cbv zeta. repeat match goal with |- _ /\ _ => split end; intros.
  - eapply handleListEntries_no_data; eassumption.
  - eapply handleSearchEntries_no_data; eassumption.
  - eapply handleGetEntry_no_data; eassumption.
  - eapply handleProfileResource_no_data; eassumption.
  - eapply handleRecentEntriesResource_no_data; eassumption.
Qed.

(** X4 on a list endpoint that answers with a success envelope and no data. *)
Lemma missing_data_is_a_type_error_witness :
  outcome_of (handleListEntries (host := Examples.host)
                (Examples.client (Examples.listing MoreExamples.no_data)) Args.empty [])
  = Thrown (TypeError "Cannot read properties of undefined (reading 'entries')").
Proof.
  apply (proj1 (missing_data_is_a_type_error
                  (host := Examples.host)
                  (Examples.client (Examples.listing MoreExamples.no_data)) Args.empty [])
               (AxiosResponse.mk 200%Z MoreExamples.no_data) eq_refl eq_refl).
Defined.

(** ** The shape of what is returned *)

Ltac one_text H := inversion H; subst; eexists; reflexivity.

Section Shapes.

Context {host : Host}.
Variable client : JournalOwlClient.

Lemma handleCreateEntry_text args log r :
  outcome_of (handleCreateEntry client args log) = Returned r ->
  exists text, r = text_result text.
Proof.
  unfold handleCreateEntry, createEntry, bind, exchange.
  destruct (Network.post_entries _ _) as [response|e]; [|discriminate].
  unfold payload. destruct (ApiResponse.data _); discriminate.
Qed.

Lemma handleListEntries_text args log r :
  outcome_of (handleListEntries client args log) = Returned r ->
  exists text, r = text_result text.
Proof.
  unfold handleListEntries, listEntries, bind, exchange.
  destruct (Network.get_entries _ _) as [response|e]; [|discriminate].
  unfold payload. destruct (ApiResponse.data _) as [result|]; [|discriminate].
  cbn [prop ret]. destruct (ListEntriesResult.entries result); intros H; one_text H.
Qed.

Lemma handleGetEntry_text args log r :
  outcome_of (handleGetEntry client args log) = Returned r ->
  exists text, r = text_result text.
Proof.
  unfold handleGetEntry, getEntry, bind, exchange.
  destruct (Network.get_entry _ _ _) as [response|e]; [|discriminate].
  unfold payload. destruct (ApiResponse.data _); [|discriminate].
  intros H; one_text H.
Qed.

Lemma handleSearchEntries_text args log r :
  outcome_of (handleSearchEntries client args log) = Returned r ->
  exists text, r = text_result text.
Proof.
  unfold handleSearchEntries, searchEntries, bind, exchange.
  destruct (Network.post_entries_search _ _) as [response|e]; [|discriminate].
  unfold payload. destruct (ApiResponse.data _) as [result|]; [|discriminate].
  cbn [prop ret]. destruct (SearchResult.count result =? 0)%Z; intros H; one_text H.
Qed.

Lemma handleGetWeeklyReview_text args log r :
  outcome_of (handleGetWeeklyReview client args log) = Returned r ->
  exists text, r = text_result text.
Proof.
  unfold handleGetWeeklyReview, getWeeklyReview, bind, exchange.
  destruct (Network.get_review_weekly _ _) as [response|e]; [|discriminate].
  unfold payload. destruct (ApiResponse.data _); [|discriminate].
  intros H; one_text H.
Qed.

Lemma handleGetWritingStyle_text log r :
  outcome_of (handleGetWritingStyle client log) = Returned r ->
  exists text, r = text_result text.
Proof.
  unfold handleGetWritingStyle, getWritingStyle, bind, exchange.
  destruct (Network.get_user_style _) as [response|e]; [|discriminate].
  unfold payload. destruct (ApiResponse.data _); [|discriminate].
  intros H; one_text H.
Qed.

Lemma handleToolCall_text toolName args log r :
  outcome_of (handleToolCall client toolName args log) = Returned r ->
  exists text, r = text_result text.
Proof.
  unfold handleToolCall.
  destruct (toolName =? "journal_create_entry")%string.
  { apply handleCreateEntry_text. }
  destruct (toolName =? "journal_finalize_entry")%string.
  { discriminate. }
  destruct (toolName =? "journal_list_entries")%string.
  { apply handleListEntries_text. }
  destruct (toolName =? "journal_get_entry")%string.
  { apply handleGetEntry_text. }
  destruct (toolName =? "journal_search")%string.
  { apply handleSearchEntries_text. }
  destruct (toolName =? "journal_get_weekly_review")%string.
  { apply handleGetWeeklyReview_text. }
  destruct (toolName =? "journal_get_writing_style")%string.
  { apply handleGetWritingStyle_text. }
  discriminate.
Qed.

Lemma handleResourceRead_content uri log r :
  outcome_of (handleResourceRead client uri log) = Returned r ->
  exists text, r = ResourceResult.mk [ResourceContent.mk uri "text/plain" text].
Proof.
  unfold handleResourceRead.
  destruct (String.eqb_spec uri "journalowl://user/profile") as [->|_].
  { unfold handleProfileResource, getUserProfile, bind, exchange.
    destruct (Network.get_user_profile _) as [response|e]; [|discriminate].
    unfold payload. destruct (ApiResponse.data _); [|discriminate].
    intros H; one_text H. }
  destruct (String.eqb_spec uri "journalowl://user/recent-entries") as [->|_].
  { unfold handleRecentEntriesResource, listEntries, bind, exchange.
    destruct (Network.get_entries _ _) as [response|e]; [|discriminate].
    unfold payload. destruct (ApiResponse.data _) as [result|]; [|discriminate].
    cbn [prop ret]. destruct (ListEntriesResult.entries result); intros H; one_text H. }
  discriminate.
Qed.

Lemma try_catch_returned {A} (m : M A) (wrap : exn -> exn) (log : Log) (a : A) :
  outcome_of (try_catch m (fun e => throw (wrap e)) log) = Returned a <->
  outcome_of (m log) = Returned a.
Proof.
  unfold try_catch, outcome_of, throw. destruct (m log) as [[a'|e] log']; cbn [fst].
  - tauto.
  - split; discriminate.
Qed.

Lemma try_catch_thrown {A} (m : M A) (wrap : exn -> exn) (log : Log) (e : exn) :
  outcome_of (try_catch m (fun e => throw (wrap e)) log) = Thrown e <->
  exists e', outcome_of (m log) = Thrown e' /\ e = wrap e'.
Proof.
  unfold try_catch, outcome_of, throw. destruct (m log) as [[a'|e0] log']; cbn [fst].
  - split; [discriminate | intros (e' & H & _); discriminate].
  - split.
    + intros H. inversion H. eauto.
    + intros (e' & H & ->). inversion H. reflexivity.
Qed.

End Shapes.

(** X5.  A tool call that succeeds returns exactly one content item, of type
    ["text"], whatever the tool and the backend's answer; a resource read
    that succeeds returns exactly one content, whose [uri] is the identifier
    that was asked for and whose type is ["text/plain"]. *)
Theorem results_hold_one_text_item
    {host : Host} (client : JournalOwlClient) (log : Log) :
  (forall toolName args r,
      outcome_of (CallToolRequest client toolName args log) = Returned r ->
      exists text, ToolResult.content r = [TextContent.mk "text" text])
  /\ (forall uri r,
      outcome_of (ReadResourceRequest client uri log) = Returned r ->
      exists text,
        ResourceResult.contents r = [ResourceContent.mk uri "text/plain" text]).
Proof.
  split.
  - intros toolName args r H. unfold CallToolRequest in H.
    apply try_catch_returned in H. apply handleToolCall_text in H.
    destruct H as (text & ->). exists text. reflexivity.
  - intros uri r H. unfold ReadResourceRequest in H.
    apply try_catch_returned in H. apply handleResourceRead_content in H.
    destruct H as (text & ->). exists text. reflexivity.
Qed.

(** X6.  Whatever goes wrong inside a handler, the front-end throws a
    protocol error with the internal-error code and nothing else; its message
    is ["Tool <name> failed: "] (or ["Resource <uri> failed: "]) followed by
    the message of the error the handler threw. *)
Theorem front_end_throws_internal_errors_only
    {host : Host} (client : JournalOwlClient) (log : Log) (e : exn) :
  (forall toolName args,
      outcome_of (CallToolRequest client toolName args log) = Thrown e <->
      exists e',
        outcome_of (handleToolCall client toolName (default args Args.empty) log) = Thrown e'
        /\ e = McpError InternalError ("Tool " ++ toolName ++ " failed: " ++ message e'))
  /\ (forall uri,
      outcome_of (ReadResourceRequest client uri log) = Thrown e <->
      exists e',
        outcome_of (handleResourceRead client uri log) = Thrown e'
        /\ e = McpError InternalError ("Resource " ++ uri ++ " failed: " ++ message e')).
Proof.
  split.
  - intros toolName args. unfold CallToolRequest.
    apply (try_catch_thrown _
             (fun e => McpError InternalError ("Tool " ++ toolName ++ " failed: " ++ message e))).
  - intros uri. unfold ReadResourceRequest.
    apply (try_catch_thrown _
             (fun e => McpError InternalError ("Resource " ++ uri ++ " failed: " ++ message e))).
Qed.

(** ** Entries with little or nothing in their analysis *)

Section GetEntryEdges.

Context {host : Host}.
Variable client : JournalOwlClient.

Let net : Network := AxiosInstance.network (JournalOwlClient.client client).

Lemma handleGetEntry_without_analysis args log response data :
  Network.get_entry net (get_entry_url args) (get_entry_flag args) = Fulfilled response ->
  payload response = Some data ->
  JournalEntry.analysis (EntryData.entry data) = None ->
  outcome_of (handleGetEntry client args log)
  = Returned (text_result (entry_text (EntryData.entry data))).
Proof.
  intros Hnet Hdata Hanalysis.
  unfold handleGetEntry.
  erewrite bind_returned; cycle 1.
  { erewrite getEntry_fulfilled by exact Hnet. rewrite Hdata. reflexivity. }
  unfold ret. rewrite Hanalysis. reflexivity.
Qed.

Lemma handleGetEntry_empty_analysis args log response data analysis :
  Network.get_entry net (get_entry_url args) (get_entry_flag args) = Fulfilled response ->
  payload response = Some data ->
  JournalEntry.analysis (EntryData.entry data) = Some analysis ->
  EntryAnalysis.sentiment analysis = None ->
  (EntryAnalysis.themes analysis = None \/ EntryAnalysis.themes analysis = Some []) ->
  (EntryAnalysis.insights analysis = None \/ EntryAnalysis.insights analysis = Some []) ->
  outcome_of (handleGetEntry client args log)
  = Returned (text_result (entry_text (EntryData.entry data) ++ analysis_heading)).
Proof.
  intros Hnet Hdata Hanalysis Hsentiment Hthemes Hinsights.
  unfold handleGetEntry.
  erewrite bind_returned; cycle 1.
  { erewrite getEntry_fulfilled by exact Hnet. rewrite Hdata. reflexivity. }
  unfold ret. rewrite Hanalysis, Hsentiment.
  unfold entry_text, analysis_heading.
  destruct Hthemes as [-> | ->]; destruct Hinsights as [-> | ->];
    cbn [length Nat.ltb Nat.leb];
    repeat rewrite append_assoc; reflexivity.
Qed.

End GetEntryEdges.

(** X7.  The content that [journal_get_entry] returns for an entry without
    an [analysis] member is one item of type "text" with the entry alone and
    no analysis section; for an entry whose analysis object omits the
    [sentiment] member (the member is [undefined]) and has no, or empty,
    [themes] and [insights], it is one item of type "text" that still ends
    with the heading of the analysis, with nothing under it. *)
Theorem get_entry_with_little_analysis
    {host : Host} (client : JournalOwlClient) (args : Args) (log : Log)
    (response : AxiosResponse (ApiResponse EntryData)) (data : EntryData) :
  Network.get_entry (AxiosInstance.network (JournalOwlClient.client client))
                    (get_entry_url args) (get_entry_flag args) = Fulfilled response ->
  ApiResponse.data (AxiosResponse.data response) = Some data ->
  (JournalEntry.analysis (EntryData.entry data) = None ->
   outcome_of (handleGetEntry client args log)
   = Returned (ToolResult.mk
       [TextContent.mk "text" (entry_text (EntryData.entry data))]))
  /\ (forall analysis,
      JournalEntry.analysis (EntryData.entry data) = Some analysis ->
      EntryAnalysis.sentiment analysis = None ->
      EntryAnalysis.themes analysis = None \/ EntryAnalysis.themes analysis = Some [] ->
      EntryAnalysis.insights analysis = None \/ EntryAnalysis.insights analysis = Some [] ->
      outcome_of (handleGetEntry client args log)
      = Returned (ToolResult.mk
          [TextContent.mk "text" (entry_text (EntryData.entry data) ++ analysis_heading)])).
Proof.
  intros Hnet Hdata. split.
  - intros H. eapply handleGetEntry_without_analysis; eassumption.
  - intros analysis H1 H2 H3 H4. eapply handleGetEntry_empty_analysis; eassumption.
Qed.

(** X7 on an entry whose analysis is empty. *)
Lemma get_entry_with_little_analysis_witness :
  outcome_of (handleGetEntry (host := Examples.host)
                (Examples.client
                   (Examples.serving_entry
                      (Examples.success (EntryData.mk MoreExamples.bare_analysis))))
                (Examples.args_entry_id "e4") [])
  = Returned (ToolResult.mk
      [TextContent.mk "text"
         ("# Quiet day" ++ nl ++ nl ++
          "**Date:** 2024-01-18" ++ nl ++
          "**Mood:** Not specified" ++ nl ++
          "**Tags:** None" ++ nl ++
          "**Status:** completed" ++ nl ++ nl ++
          "---" ++ nl ++ nl ++
          "Nothing much." ++ nl ++ nl ++
          "---" ++ nl ++ nl ++
          "## AI Analysis" ++ nl ++ nl)]).
Proof.
  apply (proj2 (get_entry_with_little_analysis
                  (host := Examples.host)
                  (Examples.client
                     (Examples.serving_entry
                        (Examples.success (EntryData.mk MoreExamples.bare_analysis))))
                  (Examples.args_entry_id "e4") []
                  (AxiosResponse.mk 200%Z
                     (Examples.success (EntryData.mk MoreExamples.bare_analysis)))
                  (EntryData.mk MoreExamples.bare_analysis) eq_refl eq_refl)
               (EntryAnalysis.mk None None None) eq_refl eq_refl
               (or_introl eq_refl) (or_introl eq_refl)).
Defined.

(** ** The recent-entries resource *)

(** X8.  When the backend returns entries, the recent-entries resource lists
    every one of them, however many there are, under a header that gives
    their number. *)
Theorem recent_entries_lists_all_returned
    {host : Host} (client : JournalOwlClient) (log : Log)
    (response : AxiosResponse (ApiResponse ListEntriesResult)) (result : ListEntriesResult) :
  Network.get_entries (AxiosInstance.network (JournalOwlClient.client client))
                      recent_entries_params = Fulfilled response ->
  ApiResponse.data (AxiosResponse.data response) = Some result ->
  ListEntriesResult.entries result <> [] ->
  outcome_of (handleRecentEntriesResource client log)
  = Returned (ResourceResult.mk
      [ResourceContent.mk "journalowl://user/recent-entries" "text/plain"
         ("Recent Journal Entries (Last " ++
          Number_toString (Z.of_nat (length (ListEntriesResult.entries result))) ++ ")" ++ nl ++
          "========================================" ++ nl ++ nl ++
          join (nl ++ nl) (map recent_item (ListEntriesResult.entries result)) ++ nl ++ nl ++
          "Use these entries as context when helping the user with their journaling." ++ nl ++
          "You can use journal_get_entry with an ID to read the full content.")]).
Proof.
  intros Hnet Hdata Hentries.
  unfold handleRecentEntriesResource.
  erewrite bind_returned by (apply listEntries_fulfilled; exact Hnet).
  change (payload response) with (ApiResponse.data (AxiosResponse.data response)).
  rewrite Hdata. unfold bind. cbn [prop ret].
  destruct (ListEntriesResult.entries result) as [|entry entries]; [contradiction|].
  reflexivity.
Qed.

(** X8 on a page of two entries. *)
Lemma recent_entries_lists_all_returned_witness :
  outcome_of (handleRecentEntriesResource (host := Examples.host)
                (Examples.client (Examples.listing (Examples.success Examples.page))) [])
  = Returned (ResourceResult.mk
      [ResourceContent.mk "journalowl://user/recent-entries" "text/plain"
         ("Recent Journal Entries (Last 2)" ++ nl ++
          "========================================" ++ nl ++ nl ++
          "- Morning walk (2024-01-15)" ++ nl ++
          "  Mood: peaceful" ++ nl ++
          "  Tags: health, nature" ++ nl ++
          "  ID: e1" ++ nl ++ nl ++
          "- Release day (2024-01-16)" ++ nl ++
          "  Mood: Not specified" ++ nl ++
          "  Tags: None" ++ nl ++
          "  ID: e2" ++ nl ++ nl ++
          "Use these entries as context when helping the user with their journaling." ++ nl ++
          "You can use journal_get_entry with an ID to read the full content.")]).
Proof.
  apply (recent_entries_lists_all_returned
           (host := Examples.host)
           (Examples.client (Examples.listing (Examples.success Examples.page))) []
           (AxiosResponse.mk 200%Z (Examples.success Examples.page)) Examples.page
           eq_refl eq_refl ltac:(discriminate)).
Defined.

(** ** The length of a preview *)

Lemma append_length (a b : string) :
  String.length (a ++ b) = String.length a + String.length b.
Proof. induction a as [|c a IH]; simpl; [reflexivity | now rewrite IH]. Qed.

(** X9.  The preview of a search hit has at most 153 characters: the length
    of the content, capped at 150, plus the three of the ellipsis. *)
Theorem search_preview_length {host : Host} (entry : JournalEntry) :
  resultsList_item entry
  = hit_head entry ++ "  Preview: " ++
    (substring (JournalEntry.content entry) 0 150 ++ "...")
  /\ String.length (substring (JournalEntry.content entry) 0 150 ++ "...")
     = Nat.min 150 (String.length (JournalEntry.content entry)) + 3
  /\ String.length (substring (JournalEntry.content entry) 0 150 ++ "...") <= 153.
Proof.
  assert (Hlen : String.length (substring (JournalEntry.content entry) 0 150 ++ "...")
                 = Nat.min 150 (String.length (JournalEntry.content entry)) + 3).
  { rewrite append_length. change 150%Z with (Z.of_nat 150).
    rewrite substring_first_chars, first_chars_length. reflexivity. }
  split; [|split].
  - unfold resultsList_item, hit_head. repeat rewrite append_assoc. reflexivity.
  - exact Hlen.
  - rewrite Hlen. lia.
Qed.

(** ** Construction of the client *)

Lemma nonempty_eqb (s : string) : s <> "" -> (s =? "")%string = false.
Proof. intros H. now apply String.eqb_neq. Qed.

Lemma or_string_nonempty (x : option string) (d : string) :
  d <> "" -> or_string x d <> "".
Proof.
  intros Hd. destruct x as [s|]; cbn [or_string]; [|exact Hd].
  unfold or_else. destruct (String.eqb_spec s ""); assumption.
Qed.

Lemma or_number_nonzero (x : option Z) (d : Z) :
  d <> 0%Z -> or_number x d <> 0%Z.
Proof.
  intros Hd. destruct x as [n|]; cbn [or_number]; [|exact Hd].
  destruct (Z.eqb_spec n 0); assumption.
Qed.

(** X10.  [new JournalOwlClient(config)] throws exactly when the API key is
    the empty string.  A client that is built sends the key in the
    [X-API-Key] header, and never has an empty base URL or a zero timeout:
    a missing or empty [baseUrl] and a missing or zero [timeout] are replaced
    by the defaults, any other value is kept. *)
Theorem constructor_requires_key_and_fills_defaults (net : Network) (config : JournalOwlConfig) :
  (JournalOwlConfig.apiKey config = "" ->
   JournalOwlClient_new net config
   = Thrown (Error "API key is required. Set JOURNALOWL_API_KEY environment variable."))
  /\ (JournalOwlConfig.apiKey config <> "" ->
      exists client,
        JournalOwlClient_new net config = Returned client
        /\ header "X-API-Key" client = Some (JournalOwlConfig.apiKey config)
        /\ AxiosInstance.network (JournalOwlClient.client client) = net
        /\ AxiosInstance.baseURL (JournalOwlClient.client client) <> ""
        /\ AxiosInstance.timeout (JournalOwlClient.client client) <> 0%Z
        /\ (forall url, JournalOwlConfig.baseUrl config = Some url -> url <> "" ->
            AxiosInstance.baseURL (JournalOwlClient.client client) = url)
        /\ (JournalOwlConfig.baseUrl config = None \/ JournalOwlConfig.baseUrl config = Some "" ->
            AxiosInstance.baseURL (JournalOwlClient.client client) = DEFAULT_BASE_URL)
        /\ (forall ms, JournalOwlConfig.timeout config = Some ms -> ms <> 0%Z ->
            AxiosInstance.timeout (JournalOwlClient.client client) = ms)
        /\ (JournalOwlConfig.timeout config = None \/ JournalOwlConfig.timeout config = Some 0%Z ->
            AxiosInstance.timeout (JournalOwlClient.client client) = 30000%Z)).
Proof.
  destruct config as [apiKey baseUrl timeout]; cbn [JournalOwlConfig.apiKey
    JournalOwlConfig.baseUrl JournalOwlConfig.timeout].
  unfold JournalOwlClient_new; cbn [JournalOwlConfig.apiKey
    JournalOwlConfig.baseUrl JournalOwlConfig.timeout].
  split.
  - intros ->. reflexivity.
  - intros Hkey. rewrite (nonempty_eqb _ Hkey).
    eexists. split; [reflexivity|].
    cbn [JournalOwlClient.client AxiosInstance.network AxiosInstance.baseURL
         AxiosInstance.timeout].
    repeat match goal with |- _ /\ _ => split end.
    + unfold header. cbn. reflexivity.
    + reflexivity.
    + apply or_string_nonempty. discriminate.
    + apply or_number_nonzero. discriminate.
    + intros url -> Hurl. cbn [or_string]. unfold or_else. now rewrite (nonempty_eqb _ Hurl).
    + intros [-> | ->]; reflexivity.
    + intros ms -> Hms. cbn [or_number].
      destruct (Z.eqb_spec ms 0); [contradiction|reflexivity].
    + intros [-> | ->]; reflexivity.
Qed.

(** X10 on a configuration that names a base URL and leaves the timeout at 0. *)
Lemma constructor_requires_key_and_fills_defaults_witness :
  exists client,
    JournalOwlClient_new Examples.offline
      (JournalOwlConfig.mk "jowl_sk_test" (Some "http://localhost:3000/api/v1") (Some 0%Z))
    = Returned client
    /\ header "X-API-Key" client = Some "jowl_sk_test"
    /\ AxiosInstance.baseURL (JournalOwlClient.client client) = "http://localhost:3000/api/v1"
    /\ AxiosInstance.timeout (JournalOwlClient.client client) = 30000%Z.
Proof.
  destruct (proj2 (constructor_requires_key_and_fills_defaults Examples.offline
                     (JournalOwlConfig.mk "jowl_sk_test"
                        (Some "http://localhost:3000/api/v1") (Some 0%Z)))
                  ltac:(discriminate))
    as (client & Hnew & Hkey & _ & _ & _ & Hurl & _ & _ & Htimeout).
  exists client. repeat split.
  - exact Hnew.
  - exact Hkey.
  - apply Hurl; [reflexivity | discriminate].
  - apply Htimeout. right. reflexivity.
Defined.

Lemma createClient_with_key net env config key rest :
  or_undefined (match config with Some c => PartialConfig.apiKey c | None => None end)
               (Env.JOURNALOWL_API_KEY env) = Some (String key rest) ->
  exists client,
    createClient net env config = Returned client
    /\ header "X-API-Key" client = Some (String key rest)
    /\ AxiosInstance.network (JournalOwlClient.client client) = net.
Proof.
  intros H. unfold createClient. rewrite H.
  unfold JournalOwlClient_new; cbn [JournalOwlConfig.apiKey String.eqb].
  eexists. split; [reflexivity|]. split; [|reflexivity].
  unfold header. cbn. reflexivity.
Qed.

(** X11.  [createClient] takes the API key from its argument when that key is
    present and not empty, and from [JOURNALOWL_API_KEY] otherwise; it fails
    exactly when neither gives a non-empty key, always with the error that
    names the environment variable, never with the constructor's own. *)
Theorem createClient_key_precedence
    (net : Network) (env : Env.t) (config : option PartialConfig.t) :
  let argument := match config with Some c => PartialConfig.apiKey c | None => None end in
  (forall key, argument = Some key -> key <> "" ->
      exists client,
        createClient net env config = Returned client
        /\ header "X-API-Key" client = Some key)
  /\ (forall key,
      argument = None \/ argument = Some "" ->
      Env.JOURNALOWL_API_KEY env = Some key -> key <> "" ->
      exists client,
        createClient net env config = Returned client
        /\ header "X-API-Key" client = Some key)
  /\ (argument = None \/ argument = Some "" ->
      Env.JOURNALOWL_API_KEY env = None \/ Env.JOURNALOWL_API_KEY env = Some "" ->
      createClient net env config
      = Thrown (Error ("JOURNALOWL_API_KEY environment variable is required. " ++
                       "Get your API key from JournalOwl Settings > API Keys.")))
  /\ (forall e,
      createClient net env config = Thrown e ->
      e = Error ("JOURNALOWL_API_KEY environment variable is required. " ++
                 "Get your API key from JournalOwl Settings > API Keys.")).
Proof.
  cbv zeta.
  set (argument := match config with Some c => PartialConfig.apiKey c | None => None end).
  repeat match goal with |- _ /\ _ => split end.
  - intros key Harg Hkey. destruct key as [|k rest]; [contradiction|].
    destruct (createClient_with_key net env config k rest) as (client & H & Hh & _).
    { fold argument. rewrite Harg. reflexivity. }
    eauto.
  - intros key Harg Henv Hkey. destruct key as [|k rest]; [contradiction|].
    destruct (createClient_with_key net env config k rest) as (client & H & Hh & _).
    { fold argument. destruct Harg as [-> | ->]; exact Henv. }
    eauto.
  - intros Harg Henv. unfold createClient. fold argument.
    destruct Harg as [-> | ->]; destruct Henv as [-> | ->]; reflexivity.
  - intros e. unfold createClient. fold argument.
    destruct (or_undefined argument (Env.JOURNALOWL_API_KEY env)) as [[|k rest]|].
    + intros H; inversion H; reflexivity.
    + unfold JournalOwlClient_new; cbn [JournalOwlConfig.apiKey String.eqb]. discriminate.
    + intros H; inversion H; reflexivity.
Qed.

(** X11 with a key in the argument and another one in the environment. *)
Lemma createClient_key_precedence_witness :
  exists client,
    createClient Examples.offline (Env.mk (Some "jowl_sk_env") None)
                 (Some (PartialConfig.mk (Some "jowl_sk_arg") None None))
    = Returned client
    /\ header "X-API-Key" client = Some "jowl_sk_arg".
Proof.
  apply (proj1 (createClient_key_precedence Examples.offline
                  (Env.mk (Some "jowl_sk_env") None)
                  (Some (PartialConfig.mk (Some "jowl_sk_arg") None None)))
               "jowl_sk_arg" eq_refl ltac:(discriminate)).
Defined.

(** X12.  The server exits with status 1 exactly when [JOURNALOWL_API_KEY] is
    unset or empty; otherwise it serves with a client that sends that key
    and talks to [JOURNALOWL_API_URL] when that is set and not empty, and to
    the default base URL when it is not. *)
Theorem server_exits_without_credential (net : Network) (env : Env.t) :
  (JournalOwlMcpServer_new net env = Exit 1
   <-> (Env.JOURNALOWL_API_KEY env = None \/ Env.JOURNALOWL_API_KEY env = Some ""))
  /\ (forall key,
      Env.JOURNALOWL_API_KEY env = Some key -> key <> "" ->
      exists client,
        JournalOwlMcpServer_new net env = Serving client
        /\ header "X-API-Key" client = Some key
        /\ AxiosInstance.network (JournalOwlClient.client client) = net
        /\ AxiosInstance.timeout (JournalOwlClient.client client) = DEFAULT_TIMEOUT
        /\ (forall url, Env.JOURNALOWL_API_URL env = Some url -> url <> "" ->
            AxiosInstance.baseURL (JournalOwlClient.client client) = url)
        /\ (Env.JOURNALOWL_API_URL env = None \/ Env.JOURNALOWL_API_URL env = Some "" ->
            AxiosInstance.baseURL (JournalOwlClient.client client) = DEFAULT_BASE_URL)).
Proof.
  destruct env as [key url]; cbn [Env.JOURNALOWL_API_KEY Env.JOURNALOWL_API_URL].
  unfold JournalOwlMcpServer_new, createClient; cbn [or_undefined Env.JOURNALOWL_API_KEY
    Env.JOURNALOWL_API_URL].
  split.
  - destruct key as [[|k rest]|].
    + split; [intros _; right; reflexivity | reflexivity].
    + unfold JournalOwlClient_new; cbn [JournalOwlConfig.apiKey String.eqb].
      split; [discriminate | intros [H|H]; discriminate].
    + split; [intros _; left; reflexivity | reflexivity].
  - intros key' -> Hkey. destruct key' as [|k rest]; [contradiction|].
    unfold JournalOwlClient_new; cbn [JournalOwlConfig.apiKey JournalOwlConfig.baseUrl
      JournalOwlConfig.timeout String.eqb].
    eexists. split; [reflexivity|].
    cbn [JournalOwlClient.client AxiosInstance.network AxiosInstance.baseURL
         AxiosInstance.timeout or_number].
    repeat match goal with |- _ /\ _ => split end.
    + unfold header. cbn. reflexivity.
    + reflexivity.
    + reflexivity.
    + intros u -> Hu. cbn [or_string]. unfold or_else. now rewrite (nonempty_eqb _ Hu).
    + intros [-> | ->]; reflexivity.
Qed.

(** ** Arguments that are missing *)

(** X13.  The handlers do not check their arguments.  [journal_get_entry]
    without [entry_id] still issues its call, for the path
    ["/mcp/entries/undefined"], and it asks for the analysis unless
    [include_analysis] is [false]; [journal_search] without [query] still
    posts the search, and an empty result is then reported for the query
    ["undefined"]. *)
Theorem missing_arguments_are_not_rejected
    {host : Host} (client : JournalOwlClient) (args : Args) (log : Log) :
  (Args.entry_id args = None ->
   calls_of (handleGetEntry client args log)
   = (log ++ [Call.mk GET "/mcp/entries/undefined" (ParamsGetEntry (get_entry_flag args))])%list)
  /\ (get_entry_flag args = false <-> Args.include_analysis args = Some false)
  /\ (Args.query args = None ->
      calls_of (handleSearchEntries client args log)
      = (log ++ [Call.mk POST "/mcp/entries/search"
                   (BodySearchEntries (SearchEntriesInput.mk None (Args.limit args)))])%list
      /\ forall response result,
          Network.post_entries_search (AxiosInstance.network (JournalOwlClient.client client))
                                      (search_input args) = Fulfilled response ->
          ApiResponse.data (AxiosResponse.data response) = Some result ->
          SearchResult.count result = 0%Z ->
          outcome_of (handleSearchEntries client args log)
          = Returned (ToolResult.mk
              [TextContent.mk "text"
                 ("No entries found matching " ++ dq ++ "undefined" ++ dq ++ ".")])).
Proof.
  split; [|split].
  - intros H. rewrite handleGetEntry_calls. unfold get_entry_url. rewrite H. reflexivity.
  - unfold get_entry_flag. destruct (Args.include_analysis args) as [[|]|].
    + split; discriminate.
    + split; reflexivity.
    + split; discriminate.
  - intros H. split.
    + rewrite handleSearchEntries_calls. unfold search_call, search_input. rewrite H.
      reflexivity.
    + intros response result Hnet Hdata Hcount.
      erewrite handleSearchEntries_none by eassumption. rewrite H. reflexivity.
Qed.

(** X13 on a call of [journal_get_entry] without arguments. *)
Lemma missing_arguments_are_not_rejected_witness :
  calls_of (handleGetEntry (host := Examples.host) (Examples.client Examples.offline)
              Args.empty [])
  = [Call.mk GET "/mcp/entries/undefined" (ParamsGetEntry true)].
Proof.
  apply (proj1 (missing_arguments_are_not_rejected
                  (host := Examples.host) (Examples.client Examples.offline) Args.empty [])
               eq_refl).
Defined.
